(** * pypowerup: the PowerupConnection session over a BLE link client

    Shallow embedding of [pypowerup.py].  The class [PowerupConnection]
    wraps the bleak scanner and client.  The object's attributes are a
    record; the bleak library and the radio environment are an oracle
    ([Transport]) that answers every call from the history of the calls made
    so far; every [await]ed library call is logged in that history.  The
    methods are written in a state-and-exception monad in which the state
    survives a raised exception, as the attributes of a Python object do.

    Python's [str.lower] is a parameter of that environment as well.

    The [print] statements only produce console output and are left out. *)

From Stdlib Require Import ZArith List String Ascii Bool Lia QArith.
From Stdlib Require Import Strings.Byte.
Import ListNotations.
Open Scope string_scope.
Open Scope list_scope.
Open Scope Z_scope.

(** ** Python values used by the module *)

(** Python's [bytes] / [bytearray]: a sequence of octets. *)
Definition bytes := list byte.

(** [int(b)] for an element [b] of a [bytes] object: its unsigned value. *)
Definition int_of_byte (b : byte) : Z := Z.of_N (Byte.to_N b).

(** [bool(b)] for an element of a [bytes] object: true iff nonzero. *)
Definition bool_of_byte (b : byte) : bool := negb (int_of_byte b =? 0).

(** The exceptions the module can see. *)
Inductive exn : Type :=
| PyException (msg : string)      (* raise Exception(msg) *)
| ValueError (msg : string)       (* raise ValueError(msg) *)
| IndexError                      (* data[0] on an empty sequence *)
| AttributeError                  (* attribute access on None *)
| TransportError (msg : string).  (* an Exception raised inside bleak *)

(** The spec's names for the two precondition failures. *)
Definition NotConnected : exn := PyException "Not connected to the device".

Definition is_NotConnected (e : exn) : Prop := e = NotConnected.

Definition is_InvalidArgument (e : exn) : Prop := exists msg, e = ValueError msg.

Definition is_precondition_failure (e : exn) : Prop :=
  is_NotConnected e \/ is_InvalidArgument e.

Inductive result (A : Type) : Type :=
| Return (a : A)
| Raise (e : exn).
Arguments Return {A} a.
Arguments Raise {A} e.

(** [bytes([x1, ..., xn])]: every element must be in [range(256)]. *)
Fixpoint bytes_of_ints (l : list Z) : result bytes :=
  match l with
  | [] => Return []
  | x :: rest =>
      if (0 <=? x) && (x <? 256) then
        match Byte.of_N (Z.to_N x), bytes_of_ints rest with
        | Some b, Return bs => Return (b :: bs)
        | _, _ => Raise (ValueError "bytes must be in range(0, 256)")
        end
      else Raise (ValueError "bytes must be in range(0, 256)")
  end.

(** [data[0]]. *)
Definition index0 (data : bytes) : result byte :=
  match data with
  | [] => Raise IndexError
  | b :: _ => Return b
  end.

(** Python's [str.lower] follows the Unicode case tables, which are no part
    of this module: it is a parameter of the model ([str_lower] below), and
    every statement about matching holds for whatever function it is.

    The sample environments need one function to compute with.
    [sample_lower] lower-cases the ASCII letters and, in UTF-8 text, the
    capital letters of the Latin-1 supplement (U+00C0 to U+00DE, the
    multiplication sign U+00D7 apart); on the names of the samples it is
    what [str.lower] returns. *)
Definition lower_ascii (c : ascii) : ascii :=
  let n := N_of_ascii c in
  if ((65 <=? n) && (n <=? 90))%N then ascii_of_N (n + 32) else c.

Definition lower_latin1 (c : ascii) : ascii :=
  let n := N_of_ascii c in
  if ((128 <=? n) && (n <=? 158) && negb (n =? 151))%N then ascii_of_N (n + 32) else c.

Fixpoint sample_lower (s : string) : string :=
  match s with
  | EmptyString => EmptyString
  | String c rest =>
      if (N_of_ascii c =? 195)%N then
        match rest with
        | EmptyString => String c EmptyString
        | String c2 rest2 => String c (String (lower_latin1 c2) (sample_lower rest2))
        end
      else String (lower_ascii c) (sample_lower rest)
  end.

(** ** The bleak objects *)

Record BLEDevice : Type := mkDevice {
  dev_name : option string;     (* d.name, None when not advertised *)
  dev_address : string
}.

(** [BleakClient(address)]. *)
Record BleakClient : Type := mkClient {
  client_address : string
}.

Record BleakGATTCharacteristic : Type := mkChar {
  char_uuid : string;
  properties : list string
}.

Record BleakGATTService : Type := mkService {
  service_uuid : string;
  characteristics : list BleakGATTCharacteristic
}.

(** A caller-supplied function reference [Callable[[int], None]]: only its
    identity matters here; each call of it is logged with its argument. *)
Definition Callable := nat.

(** The closure [notification_handler] built inside
    [enable_battery_notifications]; it captures [callback]. *)
Inductive handler : Type :=
| notification_handler (callback : Callable).

(** The awaited calls into bleak. *)
Inductive call : Type :=
| FindDevice (timeout : Q)                            (* BleakScanner.find_device_by_filter *)
| ClientConnect (c : BleakClient)                     (* client.connect() *)
| ClientDisconnect (c : BleakClient)                  (* client.disconnect() *)
| WriteGattChar (c : BleakClient) (uuid : string) (data : bytes)
| ReadGattChar (c : BleakClient) (uuid : string)
| StartNotify (c : BleakClient) (uuid : string) (h : handler).

(** The environment: what bleak answers, given the calls made before, and
    what Python's [str.lower] returns.  [None] / [inr] is a normal return,
    [Some msg] / [inl msg] an exception raised inside the library.  The scan
    timeout, a number of seconds, is only handed on to the scanner; it is a
    rational here. *)
Record Transport : Type := mkTransport {
  scan : list call -> Q -> string + list BLEDevice;   (* devices seen before the timeout, in order *)
  on_connect : list call -> BleakClient -> option string;
  on_disconnect : list call -> BleakClient -> option string;
  on_write : list call -> BleakClient -> string -> bytes -> option string;
  on_read : list call -> BleakClient -> string -> string + bytes;
  on_start_notify : list call -> BleakClient -> string -> option string;
  services_of : list call -> BleakClient -> list BleakGATTService;
  str_lower : string -> string                        (* s.lower() *)
}.

(** ** The class *)

Module PowerupConnection.

(* Service UUIDs *)
Definition POWERUP_SERVICE_UUID := "86c3810e-f171-40d9-a117-26b300768cd6".
Definition BATTERY_SERVICE_UUID := "0000180f-0000-1000-8000-00805f9b34fb".

(* Characteristic UUIDs *)
Definition MOTOR_CONTROL_UUID := "86c3810e-0010-40d9-a117-26b300768cd6".
Definition RUDDER_CONTROL_UUID := "86c3810e-0021-40d9-a117-26b300768cd6".
Definition BATTERY_LEVEL_UUID := "00002a19-0000-1000-8000-00805f9b34fb".
Definition BATTERY_CHARGING_UUID := "86c3810e-0040-40d9-a117-26b300768cd6".

(** The attributes of [self]. *)
Record t : Type := mkSelf {
  connected : bool;
  client : option BleakClient;
  device : option BLEDevice;
  _battery_callback : option Callable
}.

(** What lies outside the object: the history of library calls and the
    log of calls made to caller-supplied callbacks. *)
Record World : Type := mkWorld {
  calls : list call;
  invoked : list (Callable * Z)
}.

Definition St : Type := (t * World)%type.

(** State and exception: the state is kept when an exception is raised. *)
Definition M (A : Type) : Type := St -> result A * St.

Definition ret {A} (a : A) : M A := fun st => (Return a, st).

Definition raise {A} (e : exn) : M A := fun st => (Raise e, st).

Definition bind {A B} (m : M A) (k : A -> M B) : M B :=
  fun st =>
    match m st with
    | (Return a, st') => k a st'
    | (Raise e, st') => (Raise e, st')
    end.

(** [try: body  except Exception as e: handle(e)]. *)
Definition try_except {A} (body : M A) (handle : exn -> M A) : M A :=
  fun st =>
    match body st with
    | (Return a, st') => (Return a, st')
    | (Raise e, st') => handle e st'
    end.

(** Lifting of a pure computation that may raise. *)
Definition lift {A} (r : result A) : M A := fun st => (r, st).

(** [for x in l: body(x)]. *)
Fixpoint for_each {A} (l : list A) (body : A -> M unit) : M unit :=
  match l with
  | [] => ret tt
  | x :: rest => bind (body x) (fun _ => for_each rest body)
  end.

Declare Scope py_scope.
Delimit Scope py_scope with py.
Notation "x <- m ;; k" := (bind m (fun x => k))
  (at level 61, m at next level, right associativity) : py_scope.
Notation "m ;; k" := (bind m (fun _ => k))
  (at level 61, right associativity) : py_scope.
Open Scope py_scope.

(** Attribute reads and writes on [self]. *)
Definition self_connected : M bool := fun st => (Return (connected (fst st)), st).
Definition self_client : M (option BleakClient) := fun st => (Return (client (fst st)), st).
Definition self_device : M (option BLEDevice) := fun st => (Return (device (fst st)), st).

Definition set_connected (b : bool) : M unit :=
  fun '(s, w) => (Return tt, (mkSelf b (client s) (device s) (_battery_callback s), w)).
Definition set_client (c : option BleakClient) : M unit :=
  fun '(s, w) => (Return tt, (mkSelf (connected s) c (device s) (_battery_callback s), w)).
Definition set_device (d : option BLEDevice) : M unit :=
  fun '(s, w) => (Return tt, (mkSelf (connected s) (client s) d (_battery_callback s), w)).

(** [self.client.<method>]: attribute access on [None] raises. *)
Definition deref {A} (o : option A) : M A :=
  match o with
  | Some a => ret a
  | None => raise AttributeError
  end.

(** [__init__]. *)
Definition init : t := mkSelf false None None None.

Definition log_call (c : call) (w : World) : World :=
  mkWorld (calls w ++ [c]) (invoked w).

Section WithTransport.

Variable T : Transport.

(** The library primitives: each logs the call, then answers as the
    environment decides. *)
Definition answer_unit (o : option string) : result unit :=
  match o with
  | None => Return tt
  | Some msg => Raise (TransportError msg)
  end.

Definition answer {A} (o : string + A) : result A :=
  match o with
  | inr a => Return a
  | inl msg => Raise (TransportError msg)
  end.

(** [BleakScanner.find_device_by_filter(filterfunc, timeout)]: the first
    device seen before the timeout for which [filterfunc] is truthy. *)
Definition find_device_by_filter (filterfunc : BLEDevice -> bool) (timeout : Q)
  : M (option BLEDevice) :=
  fun '(s, w) =>
    match scan T (calls w) timeout with
    | inl msg => (Raise (TransportError msg), (s, log_call (FindDevice timeout) w))
    | inr seen => (Return (find filterfunc seen), (s, log_call (FindDevice timeout) w))
    end.

Definition client_connect (c : BleakClient) : M unit :=
  fun '(s, w) => (answer_unit (on_connect T (calls w) c), (s, log_call (ClientConnect c) w)).

Definition client_disconnect (c : BleakClient) : M unit :=
  fun '(s, w) => (answer_unit (on_disconnect T (calls w) c), (s, log_call (ClientDisconnect c) w)).

Definition write_gatt_char (c : BleakClient) (uuid : string) (data : bytes) : M unit :=
  fun '(s, w) =>
    (answer_unit (on_write T (calls w) c uuid data), (s, log_call (WriteGattChar c uuid data) w)).

Definition read_gatt_char (c : BleakClient) (uuid : string) : M bytes :=
  fun '(s, w) => (answer (on_read T (calls w) c uuid), (s, log_call (ReadGattChar c uuid) w)).

Definition start_notify (c : BleakClient) (uuid : string) (h : handler) : M unit :=
  fun '(s, w) =>
    (answer_unit (on_start_notify T (calls w) c uuid), (s, log_call (StartNotify c uuid h) w)).

(** [client.services]: a property of the client object, no call is made. *)
Definition client_services (c : BleakClient) : M (list BleakGATTService) :=
  fun '(s, w) => (Return (services_of T (calls w) c), (s, w)).

(** The filter of [connect]:
    [lambda d, ad: d.name and d.name.lower() == target_name.lower()],
    as its truth value. *)
Definition name_filter (target_name : string) (d : BLEDevice) : bool :=
  match dev_name d with
  | None => false
  | Some n =>
      if String.eqb n "" then false
      else String.eqb (str_lower T n) (str_lower T target_name)
  end.

(** [connect] returns either [True] or the pair [(False, "CouldNotFind")]. *)
Inductive connect_result : Type :=
| RTrue
| RPair (flag : bool) (reason : string).

Definition connect (target_name : string) (timeout : Q) : M connect_result :=
  found <- find_device_by_filter (name_filter target_name) timeout ;;
  set_device found ;;
  d <- self_device ;;
  match d with
  | None => ret (RPair false "CouldNotFind")
  | Some d =>
      set_client (Some (mkClient (dev_address d))) ;;
      c <- self_client ;;
      c <- deref c ;;
      client_connect c ;;
      set_connected true ;;
      ret RTrue
  end.

Definition disconnect : M unit :=
  c <- self_client ;;
  conn <- self_connected ;;
  match c with
  | Some c =>
      if conn then
        client_disconnect c ;;
        set_connected false
      else ret tt
  | None => ret tt
  end.

Definition set_motor_speed (speed : Z) : M unit :=
  conn <- self_connected ;;
  if negb conn then raise (PyException "Not connected to the device") else
  if negb ((0 <=? speed) && (speed <=? 254)) then
    raise (ValueError "Speed must be between 0 and 254") else
  speed_hex <- lift (bytes_of_ints [speed]) ;;
  c <- self_client ;;
  c <- deref c ;;
  write_gatt_char c MOTOR_CONTROL_UUID speed_hex.

Definition set_rudder_angle (angle : Z) : M unit :=
  conn <- self_connected ;;
  if negb conn then raise (PyException "Not connected to the device") else
  if negb ((-128 <=? angle) && (angle <=? 127)) then
    raise (ValueError "Angle must be between -128 and 127") else
  angle_hex <- lift (bytes_of_ints [Z.land angle 255]) ;;
  c <- self_client ;;
  c <- deref c ;;
  write_gatt_char c RUDDER_CONTROL_UUID angle_hex.

Definition get_battery_level : M Z :=
  conn <- self_connected ;;
  if negb conn then raise (PyException "Not connected to the device") else
  c <- self_client ;;
  c <- deref c ;;
  data <- read_gatt_char c BATTERY_LEVEL_UUID ;;
  b <- lift (index0 data) ;;
  ret (int_of_byte b).

Definition get_charging_status : M bool :=
  conn <- self_connected ;;
  if negb conn then raise (PyException "Not connected to the device") else
  c <- self_client ;;
  c <- deref c ;;
  data <- read_gatt_char c BATTERY_CHARGING_UUID ;;
  b <- lift (index0 data) ;;
  ret (bool_of_byte b).

(** The call of a caller-supplied callback. *)
Definition call_callback (callback : Callable) (arg : Z) : M unit :=
  fun '(s, w) => (Return tt, (s, mkWorld (calls w) (invoked w ++ [(callback, arg)]))).

(** What running the closure does when bleak delivers [(sender, data)]. *)
Definition run_handler (h : handler) (sender : Z) (data : bytes) : M unit :=
  match h with
  | notification_handler callback =>
      b <- lift (index0 data) ;;
      let battery_level := int_of_byte b in
      call_callback callback battery_level
  end.

Definition enable_battery_notifications (callback : Callable) : M unit :=
  conn <- self_connected ;;
  if negb conn then raise (PyException "Not connected to the device") else
  c <- self_client ;;
  c <- deref c ;;
  start_notify c BATTERY_LEVEL_UUID (notification_handler callback).

(** ["read" in char.properties]. *)
Definition has_read (char : BleakGATTCharacteristic) : bool :=
  existsb (String.eqb "read") (properties char).

Definition test_all_characteristics : M unit :=
  conn <- self_connected ;;
  if negb conn then raise (PyException "Not connected to the device") else
  c <- self_client ;;
  c <- deref c ;;
  services <- client_services c ;;
  for_each services (fun service =>
    for_each (characteristics service) (fun char =>
      try_except
        (if has_read char then
           c <- self_client ;;
           c <- deref c ;;
           value <- read_gatt_char c (char_uuid char) ;;
           ret tt
         else ret tt)
        (fun e => ret tt))).

End WithTransport.

End PowerupConnection.

Import PowerupConnection.

(** ** The methods as one interface *)

(** What a method returns. *)
Inductive value : Type :=
| VNone
| VInt (z : Z)
| VBool (b : bool)
| VConnect (r : connect_result).

Inductive operation : Type :=
| Connect (target_name : string) (timeout : Q)
| Disconnect
| SetMotorSpeed (speed : Z)
| SetRudderAngle (angle : Z)
| GetBatteryLevel
| GetChargingStatus
| EnableBatteryNotifications (callback : Callable)
| TestAllCharacteristics.

Definition run_op (T : Transport) (op : operation) : M value :=
  match op with
  | Connect target_name timeout => r <- connect T target_name timeout ;; ret (VConnect r)
  | Disconnect => disconnect T ;; ret VNone
  | SetMotorSpeed speed => set_motor_speed T speed ;; ret VNone
  | SetRudderAngle angle => set_rudder_angle T angle ;; ret VNone
  | GetBatteryLevel => z <- get_battery_level T ;; ret (VInt z)
  | GetChargingStatus => b <- get_charging_status T ;; ret (VBool b)
  | EnableBatteryNotifications callback => enable_battery_notifications T callback ;; ret VNone
  | TestAllCharacteristics => test_all_characteristics T ;; ret VNone
  end.

(** The six control and telemetry operations. *)
Definition is_control (op : operation) : bool :=
  match op with
  | Connect _ _ | Disconnect => false
  | _ => true
  end.

(** The invariant of the class: a connected session holds a client. *)
Definition wf (s : t) : Prop :=
  connected s = true -> exists c, client s = Some c.

(** The states the methods can produce from a fresh object. *)
Inductive reachable (T : Transport) : St -> Prop :=
| reach_init : reachable T (init, mkWorld [] [])
| reach_op : forall st op,
    reachable T st -> reachable T (snd (run_op T op st))
| reach_notify : forall st h sender data,
    reachable T st -> reachable T (snd (run_handler h sender data st)).

(** The bleak side of a subscription: the payloads delivered to a
    registered handler, one call of the handler per payload, in order. *)
Definition deliver (h : handler) (deliveries : list (Z * bytes)) : M unit :=
  for_each deliveries (fun '(sender, data) => run_handler h sender data).

(** The endpoints [test_all_characteristics] is to read, in the order of
    the enumeration. *)
Definition readable_uuids (services : list BleakGATTService) : list string :=
  flat_map (fun service => map char_uuid (filter has_read (characteristics service)))
           services.

(** The matching rule in the words of the specification: the advertised
    name equals the target name, case-insensitively, that is once both are
    lower-cased by [str.lower]. *)
Definition spec_name_equal (T : Transport) (target_name : string) (d : BLEDevice) : bool :=
  match dev_name d with
  | None => false
  | Some n => String.eqb (str_lower T n) (str_lower T target_name)
  end.

(** The source's rule, spelled out: the name is advertised, is not empty,
    and equals the target name case-insensitively, that is once both are
    lower-cased by [str.lower]. *)
Definition nonempty_name_equal (T : Transport) (target_name : string) (d : BLEDevice)
  : Prop :=
  exists n, dev_name d = Some n /\ n <> "" /\ str_lower T n = str_lower T target_name.

(** ** Sample environments *)

(** A well-behaved device: one plane in range, every call succeeds, the
    battery reads 0x64 and the charger reads 0x00. *)
Definition plane : BLEDevice := mkDevice (Some "TailorToys PowerUp") "C0:FF:EE:00:00:01".

Definition plane_client : BleakClient := mkClient "C0:FF:EE:00:00:01".

Definition plane_services : list BleakGATTService :=
  [ mkService POWERUP_SERVICE_UUID
      [ mkChar MOTOR_CONTROL_UUID ["write"; "write-without-response"];
        mkChar RUDDER_CONTROL_UUID ["write"];
        mkChar BATTERY_CHARGING_UUID ["read"; "notify"] ];
    mkService BATTERY_SERVICE_UUID
      [ mkChar BATTERY_LEVEL_UUID ["read"; "notify"] ] ].

Definition good_transport : Transport :=
  mkTransport
    (fun _ _ => inr [mkDevice None "00:00:00:00:00:00"; plane])
    (fun _ _ => None)
    (fun _ _ => None)
    (fun _ _ _ _ => None)
    (fun _ _ uuid => if String.eqb uuid BATTERY_LEVEL_UUID then inr [x64] else inr [x00])
    (fun _ _ _ => None)
    (fun _ _ => plane_services)
    sample_lower.

(** The same device with a charging endpoint whose read fails. *)
Definition flaky_transport : Transport :=
  mkTransport
    (fun _ _ => inr [plane])
    (fun _ _ => None)
    (fun _ _ => None)
    (fun _ _ _ _ => None)
    (fun _ _ uuid => if String.eqb uuid BATTERY_LEVEL_UUID then inr [x64] else inl "read failed")
    (fun _ _ _ => None)
    (fun _ _ => plane_services)
    sample_lower.

(** An environment in which the only device in range advertises an empty
    name. *)
Definition nameless_device : BLEDevice := mkDevice (Some "") "C0:FF:EE:00:00:02".

Definition nameless_transport : Transport :=
  mkTransport
    (fun _ _ => inr [nameless_device])
    (fun _ _ => None)
    (fun _ _ => None)
    (fun _ _ _ _ => None)
    (fun _ _ _ => inr [])
    (fun _ _ _ => None)
    (fun _ _ => [])
    sample_lower.

(** A radio on which the plane is seen but refuses the connection. *)
Definition refusing_transport : Transport :=
  mkTransport
    (fun _ _ => inr [plane])
    (fun _ _ => Some "refused")
    (fun _ _ => None)
    (fun _ _ _ _ => None)
    (fun _ _ _ => inr [x64])
    (fun _ _ _ => None)
    (fun _ _ => plane_services)
    sample_lower.

(** Two devices whose names leave ASCII, in UTF-8: the first advertises
    U+00E9 followed by "cole", the second, seen later, U+00C9 followed by
    "COLE". *)
Definition ecole_lower : string :=
  String (ascii_of_N 195) (String (ascii_of_N 169) "cole").

Definition ecole_upper : string :=
  String (ascii_of_N 195) (String (ascii_of_N 137) "COLE").

Definition school_bus : BLEDevice := mkDevice (Some ecole_lower) "C0:FF:EE:00:00:03".

Definition school_van : BLEDevice := mkDevice (Some ecole_upper) "C0:FF:EE:00:00:04".

Definition school_transport : Transport :=
  mkTransport
    (fun _ _ => inr [school_bus; school_van])
    (fun _ _ => None)
    (fun _ _ => None)
    (fun _ _ _ _ => None)
    (fun _ _ _ => inr [x64])
    (fun _ _ _ => None)
    (fun _ _ => [])
    sample_lower.

Definition fresh_world : World := mkWorld [] [].

(** A connected session, as [connect] leaves it. *)
Definition flying : t := mkSelf true (Some plane_client) (Some plane) None.

(** The matching rule in the words of the specification, as a statement
    about [connect]: whenever the scan sees a device whose advertised name
    equals the target name case-insensitively, the first such device is the
    one [connect] settles on. *)
Definition connect_matches_by_name_equality
    (T : Transport) (target_name : string) (timeout : Q) (s : t) (w : World) : Prop :=
  forall seen d,
    scan T (calls w) timeout = inr seen ->
    find (spec_name_equal T target_name) seen = Some d ->
    device (fst (snd (connect T target_name timeout (s, w)))) = Some d.

(** A computation that leaves the attributes of [self] as they were,
    whatever it returns or raises. *)
Definition keeps_session {A} (m : M A) : Prop :=
  forall s w, fst (snd (m (s, w))) = s.

(** ** Facts about bytes *)

Lemma int_of_byte_range (b : byte) : 0 <= int_of_byte b <= 255.
Proof.
  unfold int_of_byte. pose proof (Byte.to_N_bounded b). lia.
Qed.

Lemma byte_of_int (x : Z) :
  0 <= x <= 255 -> exists b, Byte.of_N (Z.to_N x) = Some b /\ int_of_byte b = x.
Proof.
  intros Hx.
  destruct (Byte.of_N (Z.to_N x)) as [b|] eqn:E.
  - exists b. split; [reflexivity|].
    unfold int_of_byte. rewrite (Byte.to_of_N _ E). lia.
  - apply Byte.of_N_None_iff in E. lia.
Qed.

Lemma bytes_of_ints_single (x : Z) :
  0 <= x <= 255 -> exists b, bytes_of_ints [x] = Return [b] /\ int_of_byte b = x.
Proof.
  intros Hx. destruct (byte_of_int x Hx) as (b & Hb & Hi).
  exists b. split; [|exact Hi].
  cbn [bytes_of_ints]. rewrite Hb.
  replace (0 <=? x) with true by (symmetry; apply Z.leb_le; lia).
  replace (x <? 256) with true by (symmetry; apply Z.ltb_lt; lia).
  reflexivity.
Qed.

Lemma int_of_byte_inj (a b : byte) : int_of_byte a = int_of_byte b -> a = b.
Proof.
  unfold int_of_byte. intros H. apply N2Z.inj in H.
  assert (Some a = Some b) as E
    by (rewrite <- (Byte.of_to_N a), <- (Byte.of_to_N b), H; reflexivity).
  congruence.
Qed.

Lemma land_255_mod (a : Z) : Z.land a 255 = a mod 256.
Proof.
  change 255 with (Z.ones 8). rewrite Z.land_ones by lia. reflexivity.
Qed.

Lemma signed_byte_value (angle : Z) :
  Z.land angle 255 = (angle + 256) mod 256 /\ 0 <= Z.land angle 255 <= 255.
Proof.
  rewrite land_255_mod. split.
  - replace (angle + 256) with (angle + 1 * 256) by lia.
    rewrite Z.mod_add by lia. reflexivity.
  - pose proof (Z.mod_pos_bound angle 256 ltac:(lia)). lia.
Qed.

(** ** Stepping through the methods *)

Ltac run :=
  cbv beta iota delta
    [run_op connect disconnect set_motor_speed set_rudder_angle get_battery_level
     get_charging_status enable_battery_notifications run_handler call_callback
     bind ret raise lift deref self_connected self_client self_device
     set_connected set_client set_device find_device_by_filter client_connect
     client_disconnect write_gatt_char read_gatt_char start_notify client_services
     log_call fst snd].

(** Past the connection guard and the read of [self.client]. *)
Ltac enter Hconn Hc :=
  run; rewrite Hconn; cbn [negb]; run; rewrite Hc; run.

Lemma wf_client (s : t) :
  wf s -> connected s = true -> exists c, client s = Some c.
Proof. intros H Hc. exact (H Hc). Qed.

(** ** The device filter *)

Lemma name_filter_spec (T : Transport) (target_name : string) (d : BLEDevice) :
  name_filter T target_name d = true <-> nonempty_name_equal T target_name d.
Proof.
  unfold name_filter, nonempty_name_equal. destruct (dev_name d) as [n|].
  - destruct (String.eqb_spec n "") as [E|E].
    + split; [discriminate|]. intros (n' & Hn & Hne & _). congruence.
    + split.
      * intros H. exists n. repeat split; [exact E|]. apply String.eqb_eq. exact H.
      * intros (n' & Hn & _ & Hl). injection Hn as <-. apply String.eqb_eq. exact Hl.
  - split; [discriminate|]. intros (n' & Hn & _). discriminate.
Qed.

Lemma find_nothing {A} (f : A -> bool) (l : list A) :
  (forall y, In y l -> f y = false) -> find f l = None.
Proof.
  induction l as [|a l IH]; cbn [find]; [reflexivity|].
  intros H. rewrite (H a (or_introl eq_refl)). apply IH.
  intros y Hy. apply H. right. exact Hy.
Qed.

(** ** Delivery of notifications *)

Lemma run_handler_cons (h : Callable) (sender : Z) (b : byte) (rest : bytes)
    (s : t) (w : World) :
  run_handler (notification_handler h) sender (b :: rest) (s, w) =
    (Return tt, (s, mkWorld (calls w) (invoked w ++ [(h, int_of_byte b)]))).
Proof. reflexivity. Qed.

Lemma deliver_nonempty (h : Callable) (deliveries : list (Z * bytes)) (s : t) (w : World) :
  Forall (fun d => snd d <> []) deliveries ->
  deliver (notification_handler h) deliveries (s, w) =
    (Return tt,
     (s, mkWorld (calls w)
           (invoked w ++ map (fun d => (h, int_of_byte (hd x00 (snd d)))) deliveries))).
Proof.
  intros Hall. revert w. induction Hall as [|[sender data] rest Hd _ IH]; intros w.
  - cbn. rewrite app_nil_r. destruct w; reflexivity.
  - change (deliver (notification_handler h) ((sender, data) :: rest) (s, w))
      with (bind (run_handler (notification_handler h) sender data)
                 (fun _ => deliver (notification_handler h) rest) (s, w)).
    destruct data as [|b data]; [contradiction Hd; reflexivity|].
    unfold bind. rewrite run_handler_cons, IH.
    cbn [calls invoked map snd hd]. rewrite <- app_assoc. reflexivity.
Qed.

(** ** The loops of the diagnostic enumeration *)

Lemma world_eta (w : World) : mkWorld (calls w ++ []) (invoked w) = w.
Proof. rewrite app_nil_r. destruct w; reflexivity. Qed.

(** One pass of the inner loop: every readable characteristic is read,
    whatever the earlier reads answered. *)
Lemma read_characteristics (T : Transport) (s : t) (c : BleakClient)
    (chars : list BleakGATTCharacteristic) :
  client s = Some c ->
  forall w,
    for_each chars (fun char =>
      try_except
        (if has_read char then
           c <- self_client ;;
           c <- deref c ;;
           value <- read_gatt_char T c (char_uuid char) ;;
           ret tt
         else ret tt)
        (fun e => ret tt)) (s, w) =
    (Return tt,
     (s, mkWorld (calls w ++ map (ReadGattChar c) (map char_uuid (filter has_read chars)))
                 (invoked w))).
Proof.
  intros Hc. induction chars as [|char chars IH]; intros w.
  - cbn. rewrite world_eta. reflexivity.
  - cbn [for_each filter]. unfold bind at 1, try_except at 1.
    destruct (has_read char).
    + run. rewrite Hc. run.
      destruct (on_read T (calls w) c (char_uuid char)) as [msg|data];
        cbn [answer]; rewrite IH; cbn [calls invoked map]; rewrite <- app_assoc; reflexivity.
    + run. rewrite IH. reflexivity.
Qed.

Lemma read_services (T : Transport) (s : t) (c : BleakClient)
    (services : list BleakGATTService) :
  client s = Some c ->
  forall w,
    for_each services (fun service =>
      for_each (characteristics service) (fun char =>
        try_except
          (if has_read char then
             c <- self_client ;;
             c <- deref c ;;
             value <- read_gatt_char T c (char_uuid char) ;;
             ret tt
           else ret tt)
          (fun e => ret tt))) (s, w) =
    (Return tt,
     (s, mkWorld (calls w ++ map (ReadGattChar c) (readable_uuids services)) (invoked w))).
Proof.
  intros Hc. induction services as [|service services IH]; intros w.
  - cbn. rewrite world_eta. reflexivity.
  - cbn [for_each]. unfold bind at 1.
    rewrite (read_characteristics T s c (characteristics service) Hc w).
    rewrite IH. cbn [calls invoked readable_uuids flat_map].
    rewrite map_app, <- app_assoc. reflexivity.
Qed.

Lemma test_all_characteristics_connected (T : Transport) (s : t) (w : World) (c : BleakClient) :
  connected s = true -> client s = Some c ->
  test_all_characteristics T (s, w) =
    (Return tt,
     (s, mkWorld (calls w ++
                  map (ReadGattChar c) (readable_uuids (services_of T (calls w) c)))
                 (invoked w))).
Proof.
  intros Hconn Hc. unfold test_all_characteristics.
  unfold bind at 1, self_connected at 1. cbn [fst]. rewrite Hconn. cbn [negb].
  unfold bind at 1, self_client at 1. cbn [fst]. rewrite Hc.
  unfold bind at 1, deref at 1, ret at 1.
  unfold bind at 1, client_services at 1.
  apply read_services. exact Hc.
Qed.

(** ** How the methods can fail *)

Lemma transport_error_not_precondition (msg : string) :
  ~ is_precondition_failure (TransportError msg).
Proof. intros [H|[m H]]; discriminate H. Qed.

Lemma attribute_error_not_precondition : ~ is_precondition_failure AttributeError.
Proof. intros [H|[m H]]; discriminate H. Qed.

Lemma index_error_not_precondition : ~ is_precondition_failure IndexError.
Proof. intros [H|[m H]]; discriminate H. Qed.

Ltac not_precondition :=
  match goal with
  | H : is_precondition_failure (TransportError _) |- _ =>
      exfalso; exact (transport_error_not_precondition _ H)
  | H : is_precondition_failure AttributeError |- _ =>
      exfalso; exact (attribute_error_not_precondition H)
  | H : is_precondition_failure IndexError |- _ =>
      exfalso; exact (index_error_not_precondition H)
  end.

(** The outcome of a step: either nothing moved, or the exception is not
    a precondition failure, or the step returned. *)
Ltac settle :=
  cbn [answer_unit answer index0]; cbv beta iota; intros; subst;
  match goal with
  | H : (Return _, _) = (Raise _, _) |- _ => discriminate H
  | H : (Raise _, _) = (Raise _, _) |- _ =>
      injection H as ? ? ?; subst; first [not_precondition | split; reflexivity]
  end.

Lemma connect_failure (T : Transport) (target_name : string) (timeout : Q)
    (s s' : t) (w w' : World) (e : exn) :
  connect T target_name timeout (s, w) = (Raise e, (s', w')) ->
  is_precondition_failure e -> s' = s /\ w' = w.
Proof.
  unfold connect. run.
  destruct (scan T (calls w) timeout) as [msg|seen]; [settle|].
  destruct (find (name_filter T target_name) seen) as [d|]; cbn; [|settle].
  destruct (on_connect T (calls w ++ [FindDevice timeout]) (mkClient (dev_address d)));
    settle.
Qed.

Lemma disconnect_failure (T : Transport) (s s' : t) (w w' : World) (e : exn) :
  disconnect T (s, w) = (Raise e, (s', w')) ->
  is_precondition_failure e -> s' = s /\ w' = w.
Proof.
  unfold disconnect. run.
  destruct (client s) as [c|]; [|settle].
  destruct (connected s); [|settle].
  destruct (on_disconnect T (calls w) c); cbn [answer_unit]; settle.
Qed.

Lemma set_motor_speed_failure (T : Transport) (speed : Z) (s s' : t) (w w' : World) (e : exn) :
  set_motor_speed T speed (s, w) = (Raise e, (s', w')) ->
  is_precondition_failure e -> s' = s /\ w' = w.
Proof.
  unfold set_motor_speed. run.
  destruct (connected s); cbn [negb]; [|settle].
  destruct ((0 <=? speed) && (speed <=? 254))%bool eqn:Hr; cbn [negb]; [|settle].
  apply andb_true_iff in Hr. destruct Hr as [H0 H1].
  apply Z.leb_le in H0. apply Z.leb_le in H1.
  destruct (bytes_of_ints_single speed ltac:(lia)) as (b & Hb & _). rewrite Hb.
  destruct (client s) as [c|]; [|settle].
  destruct (on_write T (calls w) c MOTOR_CONTROL_UUID [b]); cbn [answer_unit]; settle.
Qed.

Lemma set_rudder_angle_failure (T : Transport) (angle : Z) (s s' : t) (w w' : World) (e : exn) :
  set_rudder_angle T angle (s, w) = (Raise e, (s', w')) ->
  is_precondition_failure e -> s' = s /\ w' = w.
Proof.
  unfold set_rudder_angle. run.
  destruct (connected s); cbn [negb]; [|settle].
  destruct ((-128 <=? angle) && (angle <=? 127))%bool; cbn [negb]; [|settle].
  destruct (signed_byte_value angle) as [_ Hb255].
  destruct (bytes_of_ints_single (Z.land angle 255) Hb255) as (b & Hb & _). rewrite Hb.
  destruct (client s) as [c|]; [|settle].
  destruct (on_write T (calls w) c RUDDER_CONTROL_UUID [b]); cbn [answer_unit]; settle.
Qed.

Lemma get_battery_level_failure (T : Transport) (s s' : t) (w w' : World) (e : exn) :
  get_battery_level T (s, w) = (Raise e, (s', w')) ->
  is_precondition_failure e -> s' = s /\ w' = w.
Proof.
  unfold get_battery_level. run.
  destruct (connected s); cbn [negb]; [|settle].
  destruct (client s) as [c|]; [|settle].
  destruct (on_read T (calls w) c BATTERY_LEVEL_UUID) as [msg|[|b rest]];
    cbn [answer index0]; settle.
Qed.

Lemma get_charging_status_failure (T : Transport) (s s' : t) (w w' : World) (e : exn) :
  get_charging_status T (s, w) = (Raise e, (s', w')) ->
  is_precondition_failure e -> s' = s /\ w' = w.
Proof.
  unfold get_charging_status. run.
  destruct (connected s); cbn [negb]; [|settle].
  destruct (client s) as [c|]; [|settle].
  destruct (on_read T (calls w) c BATTERY_CHARGING_UUID) as [msg|[|b rest]];
    cbn [answer index0]; settle.
Qed.

Lemma enable_battery_notifications_failure
    (T : Transport) (callback : Callable) (s s' : t) (w w' : World) (e : exn) :
  enable_battery_notifications T callback (s, w) = (Raise e, (s', w')) ->
  is_precondition_failure e -> s' = s /\ w' = w.
Proof.
  unfold enable_battery_notifications. run.
  destruct (connected s); cbn [negb]; [|settle].
  destruct (client s) as [c|]; [|settle].
  destruct (on_start_notify T (calls w) c BATTERY_LEVEL_UUID); cbn [answer_unit]; settle.
Qed.

Lemma test_all_characteristics_failure (T : Transport) (s s' : t) (w w' : World) (e : exn) :
  test_all_characteristics T (s, w) = (Raise e, (s', w')) ->
  is_precondition_failure e -> s' = s /\ w' = w.
Proof.
  destruct (connected s) eqn:Hconn.
  - destruct (client s) as [c|] eqn:Hc.
    + rewrite (test_all_characteristics_connected T s w c Hconn Hc). settle.
    + unfold test_all_characteristics.
      unfold bind at 1, self_connected at 1. cbn [fst]. rewrite Hconn. cbn [negb].
      unfold bind at 1, self_client at 1. cbn [fst]. rewrite Hc.
      unfold bind at 1, deref at 1, raise at 1. settle.
  - unfold test_all_characteristics.
    unfold bind at 1, self_connected at 1. cbn [fst]. rewrite Hconn. cbn [negb].
    unfold raise. settle.
Qed.

Lemma bind_ret_raise {A B} (m : M A) (f : A -> B) (st st' : St) (e : exn) :
  bind m (fun x => ret (f x)) st = (Raise e, st') -> m st = (Raise e, st').
Proof.
  unfold bind, ret. destruct (m st) as [[a|e0] st0]; [discriminate|].
  intros [= -> ->]. reflexivity.
Qed.

(** ** The class invariant *)

Lemma keeps_bind {A B} (m : M A) (k : A -> M B) :
  keeps_session m -> (forall a, keeps_session (k a)) -> keeps_session (bind m k).
Proof.
  intros Hm Hk s w. unfold bind. specialize (Hm s w).
  destruct (m (s, w)) as [[a|e] [s1 w1]]; cbn in Hm; subst s1; [apply Hk | reflexivity].
Qed.

Lemma keeps_try_except {A} (body : M A) (handle : exn -> M A) :
  keeps_session body -> (forall e, keeps_session (handle e)) ->
  keeps_session (try_except body handle).
Proof.
  intros Hm Hk s w. unfold try_except. specialize (Hm s w).
  destruct (body (s, w)) as [[a|e] [s1 w1]]; cbn in Hm; subst s1; [reflexivity | apply Hk].
Qed.

Lemma keeps_for_each {A} (l : list A) (body : A -> M unit) :
  (forall a, keeps_session (body a)) -> keeps_session (for_each l body).
Proof.
  intros Hb. induction l as [|a l IH]; cbn [for_each].
  - intros s w. reflexivity.
  - apply keeps_bind; [apply Hb | intros _; exact IH].
Qed.

Lemma keeps_deref {A} (o : option A) : keeps_session (deref o).
Proof. destruct o; intros s w; reflexivity. Qed.

Ltac keeps :=
  repeat first
    [ apply keeps_bind; [|intros]
    | apply keeps_try_except; [|intros]
    | apply keeps_for_each; intros
    | match goal with
      | |- keeps_session (if ?b then _ else _) => destruct b
      end
    | apply keeps_deref
    | solve [intros s0 w0; reflexivity] ].

Lemma control_keeps_session (T : Transport) (op : operation) :
  is_control op = true -> keeps_session (run_op T op).
Proof.
  destruct op; try discriminate; intros _; cbn [run_op];
    unfold set_motor_speed, set_rudder_angle, get_battery_level, get_charging_status,
      enable_battery_notifications, test_all_characteristics; keeps.
Qed.

Lemma run_handler_keeps_session (h : handler) (sender : Z) (data : bytes) :
  keeps_session (run_handler h sender data).
Proof. destruct h, data; intros s w; reflexivity. Qed.

Lemma run_op_keeps_wf (T : Transport) (op : operation) (s : t) (w : World) :
  wf s -> wf (fst (snd (run_op T op (s, w)))).
Proof.
  intros Hwf.
  destruct (is_control op) eqn:Hop.
  - rewrite (control_keeps_session T op Hop). exact Hwf.
  - destruct op; try discriminate Hop; cbn [run_op].
    + unfold connect. run.
      destruct (scan T (calls w) timeout) as [msg|seen]; [exact Hwf|].
      destruct (find (name_filter T target_name) seen) as [d|]; cbn.
      * destruct (on_connect T (calls w ++ [FindDevice timeout]) (mkClient (dev_address d)));
          cbn; intros _; eexists; reflexivity.
      * exact Hwf.
    + unfold disconnect. run.
      destruct (client s) as [c|] eqn:Hc; [|exact Hwf].
      destruct (connected s) eqn:Hconn; [|exact Hwf].
      destruct (on_disconnect T (calls w) c); cbn; [exact Hwf|]. discriminate.
Qed.

Lemma reachable_wf (T : Transport) (st : St) : reachable T st -> wf (fst st).
Proof.
  induction 1 as [|[s w] op _ IH|[s w] h sender data _ IH].
  - discriminate.
  - apply run_op_keeps_wf. exact IH.
  - rewrite run_handler_keeps_session. exact IH.
Qed.

(** ** Motor speed *)

(** C1: while connected, [set_motor_speed speed] with [0 <= speed <= 254]
    makes exactly one library call, the write of the single byte whose value
    is [speed] to the motor-control endpoint, and leaves the object as it
    was; with [speed] outside that range it makes no call at all and raises
    [ValueError] (the spec's InvalidArgument). *)
Theorem set_motor_speed_writes_one_byte (T : Transport) (s : t) (w : World) (speed : Z) :
  wf s -> connected s = true ->
  exists c, client s = Some c /\
    (0 <= speed <= 254 ->
       exists b, int_of_byte b = speed /\
         set_motor_speed T speed (s, w) =
           (answer_unit (on_write T (calls w) c MOTOR_CONTROL_UUID [b]),
            (s, mkWorld (calls w ++ [WriteGattChar c MOTOR_CONTROL_UUID [b]]) (invoked w)))) /\
    (~ 0 <= speed <= 254 ->
       exists e, is_InvalidArgument e /\
         set_motor_speed T speed (s, w) = (Raise e, (s, w))).
Proof.
  intros Hwf Hconn. destruct (wf_client s Hwf Hconn) as [c Hc].
  exists c. split; [exact Hc|]. split.
  - intros Hr.
    destruct (bytes_of_ints_single speed ltac:(lia)) as (b & Hb & Hi).
    exists b. split; [exact Hi|].
    unfold set_motor_speed. run. rewrite Hconn. cbn [negb].
    replace ((0 <=? speed) && (speed <=? 254))%bool with true
      by (symmetry; apply andb_true_iff; split; apply Z.leb_le; lia).
    cbn [negb]. rewrite Hb, Hc. reflexivity.
  - intros Hr.
    exists (ValueError "Speed must be between 0 and 254"). split.
    + eexists; reflexivity.
    + unfold set_motor_speed. run. rewrite Hconn. cbn [negb].
      replace ((0 <=? speed) && (speed <=? 254))%bool with false; [reflexivity|].
      symmetry. apply andb_false_iff.
      destruct (Z.leb_spec 0 speed); [right; apply Z.leb_gt; lia | left; reflexivity].
Qed.

Lemma set_motor_speed_witness :
  wf flying /\ connected flying = true /\
  exists b, int_of_byte b = 200 /\
    set_motor_speed good_transport 200 (flying, fresh_world) =
      (Return tt, (flying, mkWorld [WriteGattChar plane_client MOTOR_CONTROL_UUID [b]] [])).
Proof.
  assert (Hwf : wf flying) by (intros _; exists plane_client; reflexivity).
  assert (Hc : connected flying = true) by reflexivity.
  split; [exact Hwf|]. split; [exact Hc|].
  destruct (set_motor_speed_writes_one_byte good_transport flying fresh_world 200 Hwf Hc)
    as (c & Hcl & Hin & _).
  injection Hcl as <-.
  destruct (Hin ltac:(lia)) as (b & Hi & Hrun).
  exists b. split; [exact Hi | exact Hrun].
Defined.

(** ** Rudder angle *)

(** C2: while connected, [set_rudder_angle angle] with
    [-128 <= angle <= 127] makes exactly one library call, the write of the
    single byte of value [(angle + 256) mod 256] to the rudder-control
    endpoint: 0xFF for -1, 0x7F for 127, 0x80 for -128.  With [angle]
    outside the range it makes no call and raises [ValueError]. *)
Theorem set_rudder_angle_writes_signed_byte (T : Transport) (s : t) (w : World) (angle : Z) :
  wf s -> connected s = true ->
  exists c, client s = Some c /\
    (-128 <= angle <= 127 ->
       exists b, int_of_byte b = (angle + 256) mod 256 /\
         (angle = -1 -> b = xff) /\ (angle = 127 -> b = x7f) /\ (angle = -128 -> b = x80) /\
         set_rudder_angle T angle (s, w) =
           (answer_unit (on_write T (calls w) c RUDDER_CONTROL_UUID [b]),
            (s, mkWorld (calls w ++ [WriteGattChar c RUDDER_CONTROL_UUID [b]]) (invoked w)))) /\
    (~ -128 <= angle <= 127 ->
       exists e, is_InvalidArgument e /\
         set_rudder_angle T angle (s, w) = (Raise e, (s, w))).
Proof.
  intros Hwf Hconn. destruct (wf_client s Hwf Hconn) as [c Hc].
  exists c. split; [exact Hc|]. split.
  - intros Hr.
    destruct (signed_byte_value angle) as [Hv Hb255].
    destruct (bytes_of_ints_single (Z.land angle 255) Hb255) as (b & Hb & Hi).
    exists b. rewrite Hv in Hi.
    split; [exact Hi|].
    repeat split.
    + intros ->. apply int_of_byte_inj. rewrite Hi. reflexivity.
    + intros ->. apply int_of_byte_inj. rewrite Hi. reflexivity.
    + intros ->. apply int_of_byte_inj. rewrite Hi. reflexivity.
    + unfold set_rudder_angle. run. rewrite Hconn. cbn [negb].
      replace ((-128 <=? angle) && (angle <=? 127))%bool with true
        by (symmetry; apply andb_true_iff; split; apply Z.leb_le; lia).
      cbn [negb]. rewrite Hb, Hc. reflexivity.
  - intros Hr.
    exists (ValueError "Angle must be between -128 and 127"). split.
    + eexists; reflexivity.
    + unfold set_rudder_angle. run. rewrite Hconn. cbn [negb].
      replace ((-128 <=? angle) && (angle <=? 127))%bool with false; [reflexivity|].
      symmetry. apply andb_false_iff.
      destruct (Z.leb_spec (-128) angle); [right; apply Z.leb_gt; lia | left; reflexivity].
Qed.

Lemma set_rudder_angle_witness :
  wf flying /\ connected flying = true /\
  set_rudder_angle good_transport (-1) (flying, fresh_world) =
    (Return tt, (flying, mkWorld [WriteGattChar plane_client RUDDER_CONTROL_UUID [xff]] [])).
Proof.
  assert (Hwf : wf flying) by (intros _; exists plane_client; reflexivity).
  assert (Hc : connected flying = true) by reflexivity.
  split; [exact Hwf|]. split; [exact Hc|].
  destruct (set_rudder_angle_writes_signed_byte good_transport flying fresh_world (-1) Hwf Hc)
    as (c & Hcl & Hin & _).
  injection Hcl as <-.
  destruct (Hin ltac:(lia)) as (b & _ & Hm1 & _ & _ & Hrun).
  rewrite (Hm1 eq_refl) in Hrun. exact Hrun.
Defined.

(** ** The connection guard *)

(** C3: each of the six control and telemetry operations, called on a
    disconnected session, raises the "Not connected" exception and leaves
    the object, the history of library calls and the callback log
    untouched: no library call is made. *)
Theorem disconnected_operations_fail_without_calls
    (T : Transport) (op : operation) (s : t) (w : World) :
  is_control op = true -> connected s = false ->
  run_op T op (s, w) = (Raise NotConnected, (s, w)).
Proof.
  intros Hop Hconn.
  destruct op; try discriminate Hop;
    unfold run_op, set_motor_speed, set_rudder_angle, get_battery_level,
      get_charging_status, enable_battery_notifications, test_all_characteristics;
    run; rewrite Hconn; reflexivity.
Qed.

Lemma disconnected_operations_witness :
  run_op good_transport (SetMotorSpeed 100) (init, fresh_world)
    = (Raise NotConnected, (init, fresh_world)) /\
  run_op good_transport TestAllCharacteristics (init, fresh_world)
    = (Raise NotConnected, (init, fresh_world)).
Proof.
  split.
  - apply (disconnected_operations_fail_without_calls good_transport (SetMotorSpeed 100));
      reflexivity.
  - apply (disconnected_operations_fail_without_calls good_transport TestAllCharacteristics);
      reflexivity.
Defined.

(** ** Discovery and connection *)

(** C4, the claim as stated fails: a device that advertises the empty name
    is equal to the target name [""] case-insensitively, yet the filter's
    [d.name and ...] guard rejects it and [connect] reports CouldNotFind. *)
Lemma connect_empty_name_counterexample :
  find (spec_name_equal nameless_transport "") [nameless_device] = Some nameless_device /\
  connect nameless_transport "" (5 # 1) (init, fresh_world) =
    (Return (RPair false "CouldNotFind"), (init, mkWorld [FindDevice (5 # 1)] [])) /\
  ~ connect_matches_by_name_equality nameless_transport "" (5 # 1) init fresh_world.
Proof.
  split; [reflexivity|]. split; [reflexivity|].
  intros H. specialize (H [nameless_device] nameless_device eq_refl eq_refl).
  discriminate H.
Qed.

(** C4, amended: when the scan completes, [connect] settles on the first
    device seen whose name is advertised, non-empty and equal to the target
    name case-insensitively, and tries to connect to its address.  When no
    device seen within the timeout is such a device, it makes no further
    call, returns the pair [(False, "CouldNotFind")] without raising, and
    leaves the [connected] flag and the client as they were, so that a
    disconnected session stays disconnected. *)
Theorem connect_first_match_or_could_not_find
    (T : Transport) (target_name : string) (timeout : Q) (s : t) (w : World)
    (seen : list BLEDevice) :
  scan T (calls w) timeout = inr seen ->
  (forall d before after,
      seen = before ++ d :: after ->
      nonempty_name_equal T target_name d ->
      (forall d', In d' before -> ~ nonempty_name_equal T target_name d') ->
      let c := mkClient (dev_address d) in
      connect T target_name timeout (s, w) =
        (match on_connect T (calls w ++ [FindDevice timeout]) c with
         | None => Return RTrue
         | Some msg => Raise (TransportError msg)
         end,
         (mkSelf (match on_connect T (calls w ++ [FindDevice timeout]) c with
                  | None => true
                  | Some _ => connected s
                  end)
                 (Some c) (Some d) (_battery_callback s),
          mkWorld (calls w ++ [FindDevice timeout] ++ [ClientConnect c]) (invoked w))))
  /\
  ((forall d, In d seen -> ~ nonempty_name_equal T target_name d) ->
      connect T target_name timeout (s, w) =
        (Return (RPair false "CouldNotFind"),
         (mkSelf (connected s) (client s) None (_battery_callback s),
          mkWorld (calls w ++ [FindDevice timeout]) (invoked w)))
      /\ (connected s = false ->
          connected (fst (snd (connect T target_name timeout (s, w)))) = false)).
Proof.
  intros Hscan. split.
  - intros d before after -> Hd Hbefore c.
    assert (Hfind : find (name_filter T target_name) (before ++ d :: after) = Some d).
    { clear Hscan. induction before as [|a before IH]; cbn [app find].
      - apply name_filter_spec in Hd. rewrite Hd. reflexivity.
      - destruct (name_filter T target_name a) eqn:Fa.
        + exfalso. apply (Hbefore a (or_introl eq_refl)). apply name_filter_spec. exact Fa.
        + apply IH. intros d' Hd'. apply Hbefore. right. exact Hd'. }
    subst c. unfold connect. run. rewrite Hscan, Hfind. cbn.
    rewrite <- app_assoc.
    destruct (on_connect T (calls w ++ [FindDevice timeout]) (mkClient (dev_address d)));
      reflexivity.
  - intros Hnone.
    assert (Hfind : find (name_filter T target_name) seen = None).
    { apply find_nothing. intros y Hy.
      destruct (name_filter T target_name y) eqn:Fy; [|reflexivity].
      exfalso. apply (Hnone y Hy). apply name_filter_spec. exact Fy. }
    assert (Hrun : connect T target_name timeout (s, w) =
        (Return (RPair false "CouldNotFind"),
         (mkSelf (connected s) (client s) None (_battery_callback s),
          mkWorld (calls w ++ [FindDevice timeout]) (invoked w)))).
    { unfold connect. run. rewrite Hscan, Hfind. reflexivity. }
    split; [exact Hrun|]. intros Hc. rewrite Hrun. exact Hc.
Qed.

Lemma connect_witness :
  connect good_transport "tailortoys POWERUP" (5 # 1) (init, fresh_world) =
    (Return RTrue,
     (flying, mkWorld [FindDevice (5 # 1); ClientConnect plane_client] [])) /\
  connect good_transport "Some Other Toy" (5 # 1) (init, fresh_world) =
    (Return (RPair false "CouldNotFind"), (init, mkWorld [FindDevice (5 # 1)] [])) /\
  connect school_transport ecole_upper (5 # 1) (init, fresh_world) =
    (Return RTrue,
     (mkSelf true (Some (mkClient "C0:FF:EE:00:00:03")) (Some school_bus) None,
      mkWorld [FindDevice (5 # 1); ClientConnect (mkClient "C0:FF:EE:00:00:03")] [])).
Proof.
  pose proof (connect_first_match_or_could_not_find good_transport
                "tailortoys POWERUP" (5 # 1) init fresh_world
                [mkDevice None "00:00:00:00:00:00"; plane] eq_refl) as [Hmatch _].
  pose proof (connect_first_match_or_could_not_find good_transport
                "Some Other Toy" (5 # 1) init fresh_world
                [mkDevice None "00:00:00:00:00:00"; plane] eq_refl) as [_ Hnone].
  pose proof (connect_first_match_or_could_not_find school_transport
                ecole_upper (5 # 1) init fresh_world
                [school_bus; school_van] eq_refl) as [Hschool _].
  split; [|split].
  - apply (Hmatch plane [mkDevice None "00:00:00:00:00:00"] [] eq_refl).
    + exists "TailorToys PowerUp". split; [reflexivity|].
      split; [discriminate | vm_compute; reflexivity].
    + intros d' [<-|[]] (n & Hn & _). discriminate Hn.
  - apply Hnone. intros d [<-|[<-|[]]] (n & Hn & Hne & Hl).
    + discriminate Hn.
    + injection Hn as <-. vm_compute in Hl. discriminate Hl.
  - apply (Hschool school_bus [] [school_van] eq_refl).
    + exists ecole_lower. split; [reflexivity|].
      split; [unfold ecole_lower; discriminate | vm_compute; reflexivity].
    + intros d' [].
Defined.

(** ** Disconnecting *)

(** C5: on a session that is not connected [disconnect] does nothing at
    all; whenever [disconnect] returns, the session is disconnected,
    whatever it was before; and a second [disconnect] right after the first
    does nothing and leaves the session disconnected. *)
Theorem disconnect_leaves_disconnected (T : Transport) (s : t) (w : World) :
  wf s ->
  (connected s = false -> disconnect T (s, w) = (Return tt, (s, w))) /\
  (forall s' w',
      disconnect T (s, w) = (Return tt, (s', w')) ->
      connected s' = false /\
      disconnect T (s', w') = (Return tt, (s', w'))).
Proof.
  intros Hwf.
  assert (Hnoop : forall s0 w0, connected s0 = false ->
                    disconnect T (s0, w0) = (Return tt, (s0, w0))).
  { intros s0 w0 H0. unfold disconnect. run. rewrite H0.
    destruct (client s0); reflexivity. }
  split; [apply Hnoop|].
  intros s' w' Hrun.
  assert (Hd : connected s' = false).
  { revert Hrun. unfold disconnect. run.
    destruct (connected s) eqn:Hconn.
    - destruct (wf_client s Hwf Hconn) as [c Hc]. rewrite Hc.
      destruct (on_disconnect T (calls w) c); cbn; intros [= <- <-]; reflexivity.
    - destruct (client s); intros [= <- <-]; exact Hconn. }
  split; [exact Hd | apply Hnoop; exact Hd].
Qed.

Lemma disconnect_witness :
  wf flying /\
  disconnect good_transport (flying, fresh_world) =
    (Return tt, (mkSelf false (Some plane_client) (Some plane) None,
                 mkWorld [ClientDisconnect plane_client] [])) /\
  connected (mkSelf false (Some plane_client) (Some plane) None) = false /\
  disconnect good_transport
    (mkSelf false (Some plane_client) (Some plane) None,
     mkWorld [ClientDisconnect plane_client] []) =
    (Return tt, (mkSelf false (Some plane_client) (Some plane) None,
                 mkWorld [ClientDisconnect plane_client] [])).
Proof.
  assert (Hwf : wf flying) by (intros _; exists plane_client; reflexivity).
  split; [exact Hwf|]. split; [reflexivity|].
  destruct (disconnect_leaves_disconnected good_transport flying fresh_world Hwf)
    as [_ Htwice].
  exact (Htwice _ _ eq_refl).
Defined.

(** ** Battery notifications *)

(** C6: while connected, [enable_battery_notifications handler] makes one
    library call, the subscription of the closure over [handler] to the
    battery-level endpoint, and calls [handler] zero times itself.  From
    then on every payload delivered to that closure calls [handler] exactly
    once, with the unsigned value of the payload's first byte, in the order
    of delivery; a delivery of the byte 0x32 calls [handler 50] once. *)
Theorem enable_battery_notifications_calls_handler
    (T : Transport) (s : t) (w : World) (handler : Callable) :
  wf s -> connected s = true ->
  exists c, client s = Some c /\
    snd (enable_battery_notifications T handler (s, w)) =
      (s, mkWorld (calls w ++ [StartNotify c BATTERY_LEVEL_UUID (notification_handler handler)])
                  (invoked w)) /\
    (forall deliveries st,
        Forall (fun d => snd d <> []) deliveries ->
        deliver (notification_handler handler) deliveries st =
          (Return tt,
           (fst st,
            mkWorld (calls (snd st))
              (invoked (snd st) ++
               map (fun d => (handler, int_of_byte (hd x00 (snd d)))) deliveries)))) /\
    (forall sender st,
        deliver (notification_handler handler) [(sender, [x32])] st =
          (Return tt,
           (fst st, mkWorld (calls (snd st)) (invoked (snd st) ++ [(handler, 50)])))).
Proof.
  intros Hwf Hconn. destruct (wf_client s Hwf Hconn) as [c Hc].
  exists c. split; [exact Hc|]. split; [|split].
  - unfold enable_battery_notifications. enter Hconn Hc. reflexivity.
  - intros deliveries [s0 w0] Hall. apply deliver_nonempty. exact Hall.
  - intros sender [s0 w0]. apply (deliver_nonempty handler [(sender, [x32])]).
    constructor; [discriminate | constructor].
Qed.

Lemma enable_battery_notifications_witness :
  wf flying /\ connected flying = true /\
  enable_battery_notifications good_transport 7%nat (flying, fresh_world) =
    (Return tt,
     (flying,
      mkWorld [StartNotify plane_client BATTERY_LEVEL_UUID (notification_handler 7%nat)] [])) /\
  deliver (notification_handler 7%nat) [(42, [x32]); (42, [x31; x00]); (42, [xff])]
          (flying, fresh_world) =
    (Return tt, (flying, mkWorld [] [(7%nat, 50); (7%nat, 49); (7%nat, 255)])).
Proof.
  assert (Hwf : wf flying) by (intros _; exists plane_client; reflexivity).
  assert (Hc : connected flying = true) by reflexivity.
  split; [exact Hwf|]. split; [exact Hc|].
  destruct (enable_battery_notifications_calls_handler
              good_transport flying fresh_world 7%nat Hwf Hc)
    as (c & Hcl & _ & Hdeliver & _).
  split; [reflexivity|].
  apply (Hdeliver [(42, [x32]); (42, [x31; x00]); (42, [xff])] (flying, fresh_world)).
  repeat constructor; discriminate.
Defined.

(** ** Battery level *)

(** C7: while connected, [get_battery_level] makes exactly one library
    call, a read of the battery-level endpoint, leaves the object as it was,
    and returns the unsigned value of the first byte read as it is; every
    value from 0 to 255 is the value of some byte and is returned unchanged,
    those above 100 included. *)
Theorem get_battery_level_returns_byte (T : Transport) (s : t) (w : World) :
  wf s -> connected s = true ->
  exists c, client s = Some c /\
    snd (get_battery_level T (s, w)) =
      (s, mkWorld (calls w ++ [ReadGattChar c BATTERY_LEVEL_UUID]) (invoked w)) /\
    (forall b rest,
        on_read T (calls w) c BATTERY_LEVEL_UUID = inr (b :: rest) ->
        fst (get_battery_level T (s, w)) = Return (int_of_byte b)) /\
    (forall v, 0 <= v <= 255 ->
        exists b, int_of_byte b = v /\
          (on_read T (calls w) c BATTERY_LEVEL_UUID = inr [b] ->
           fst (get_battery_level T (s, w)) = Return v)).
Proof.
  intros Hwf Hconn. destruct (wf_client s Hwf Hconn) as [c Hc].
  exists c. split; [exact Hc|].
  assert (Hread : forall b rest,
             on_read T (calls w) c BATTERY_LEVEL_UUID = inr (b :: rest) ->
             fst (get_battery_level T (s, w)) = Return (int_of_byte b)).
  { intros b rest Hr. unfold get_battery_level. enter Hconn Hc.
    rewrite Hr. reflexivity. }
  split; [|split; [exact Hread|]].
  - unfold get_battery_level. enter Hconn Hc.
    destruct (on_read T (calls w) c BATTERY_LEVEL_UUID) as [msg|[|b rest]]; reflexivity.
  - intros v Hv. destruct (byte_of_int v Hv) as (b & _ & Hb).
    exists b. split; [exact Hb|]. intros Hr. rewrite <- Hb. exact (Hread b [] Hr).
Qed.

Lemma get_battery_level_witness :
  wf flying /\ connected flying = true /\
  fst (get_battery_level good_transport (flying, fresh_world)) = Return 100.
Proof.
  assert (Hwf : wf flying) by (intros _; exists plane_client; reflexivity).
  assert (Hc : connected flying = true) by reflexivity.
  split; [exact Hwf|]. split; [exact Hc|].
  destruct (get_battery_level_returns_byte good_transport flying fresh_world Hwf Hc)
    as (c & Hcl & _ & Hread & _).
  injection Hcl as <-.
  exact (Hread x64 [] eq_refl).
Defined.

(** ** The diagnostic enumeration *)

(** C8: while connected, [test_all_characteristics] returns normally and
    the library calls it makes are exactly one read of each enumerated
    endpoint whose properties contain ["read"], in the order of the
    enumeration, whatever the reads answer: a read that raises is caught
    and the remaining endpoints are still read. *)
Theorem test_all_characteristics_reads_every_readable
    (T : Transport) (s : t) (w : World) :
  wf s -> connected s = true ->
  exists c, client s = Some c /\
    test_all_characteristics T (s, w) =
      (Return tt,
       (s, mkWorld (calls w ++
                    map (ReadGattChar c) (readable_uuids (services_of T (calls w) c)))
                   (invoked w))).
Proof.
  intros Hwf Hconn. destruct (wf_client s Hwf Hconn) as [c Hc].
  exists c. split; [exact Hc|].
  apply test_all_characteristics_connected; assumption.
Qed.

Lemma test_all_characteristics_witness :
  wf flying /\ connected flying = true /\
  on_read flaky_transport [] plane_client BATTERY_CHARGING_UUID = inl "read failed" /\
  test_all_characteristics flaky_transport (flying, fresh_world) =
    (Return tt,
     (flying,
      mkWorld [ReadGattChar plane_client BATTERY_CHARGING_UUID;
               ReadGattChar plane_client BATTERY_LEVEL_UUID] [])).
Proof.
  assert (Hwf : wf flying) by (intros _; exists plane_client; reflexivity).
  assert (Hc : connected flying = true) by reflexivity.
  split; [exact Hwf|]. split; [exact Hc|]. split; [reflexivity|].
  destruct (test_all_characteristics_reads_every_readable
              flaky_transport flying fresh_world Hwf Hc) as (c & Hcl & Hrun).
  injection Hcl as <-. exact Hrun.
Defined.

(** ** Failed preconditions leave the session alone *)

(** C9: whenever a method fails on a precondition check, that is with the
    "Not connected" exception or with a [ValueError], the attributes of the
    object ([connected], [client], [device], [_battery_callback]) are what
    they were before the call, and no library call was made. *)
Theorem precondition_failure_keeps_session
    (T : Transport) (op : operation) (s s' : t) (w w' : World) (e : exn) :
  run_op T op (s, w) = (Raise e, (s', w')) ->
  is_precondition_failure e ->
  s' = s /\ w' = w.
Proof.
  destruct op; cbn [run_op]; intros H; apply bind_ret_raise in H; revert H.
  - apply connect_failure.
  - apply disconnect_failure.
  - apply set_motor_speed_failure.
  - apply set_rudder_angle_failure.
  - apply get_battery_level_failure.
  - apply get_charging_status_failure.
  - apply enable_battery_notifications_failure.
  - apply test_all_characteristics_failure.
Qed.

Lemma precondition_failure_witness :
  run_op good_transport (SetRudderAngle 128) (flying, fresh_world) =
    (Raise (ValueError "Angle must be between -128 and 127"), (flying, fresh_world)) /\
  is_precondition_failure (ValueError "Angle must be between -128 and 127") /\
  flying = flying /\ fresh_world = fresh_world.
Proof.
  assert (Hrun : run_op good_transport (SetRudderAngle 128) (flying, fresh_world) =
                   (Raise (ValueError "Angle must be between -128 and 127"),
                    (flying, fresh_world))) by reflexivity.
  assert (Hpre : is_precondition_failure (ValueError "Angle must be between -128 and 127"))
    by (right; eexists; reflexivity).
  split; [exact Hrun|]. split; [exact Hpre|].
  exact (precondition_failure_keeps_session good_transport (SetRudderAngle 128)
           flying flying fresh_world fresh_world _ Hrun Hpre).
Defined.

(** ** First-byte access *)

(** C10: [get_battery_level], [get_charging_status] and the notification
    handler look at index 0 of the payload only.  When the payload is not
    empty the access succeeds and the result is a function of the first
    byte alone; when the payload is empty the access raises [IndexError]
    and no value is returned (and the callback is not called). *)
Theorem first_byte_access (T : Transport) (s : t) (w : World) (c : BleakClient) :
  connected s = true -> client s = Some c ->
  (forall data,
      on_read T (calls w) c BATTERY_LEVEL_UUID = inr data ->
      fst (get_battery_level T (s, w)) =
        match data with
        | [] => Raise IndexError
        | b :: _ => Return (int_of_byte b)
        end) /\
  (forall data,
      on_read T (calls w) c BATTERY_CHARGING_UUID = inr data ->
      fst (get_charging_status T (s, w)) =
        match data with
        | [] => Raise IndexError
        | b :: _ => Return (bool_of_byte b)
        end) /\
  (forall callback sender data,
      run_handler (notification_handler callback) sender data (s, w) =
        match data with
        | [] => (Raise IndexError, (s, w))
        | b :: _ =>
            (Return tt, (s, mkWorld (calls w) (invoked w ++ [(callback, int_of_byte b)])))
        end).
Proof.
  intros Hconn Hc. repeat split.
  - intros data Hr. unfold get_battery_level. enter Hconn Hc.
    rewrite Hr. destruct data; reflexivity.
  - intros data Hr. unfold get_charging_status. enter Hconn Hc.
    rewrite Hr. destruct data; reflexivity.
  - intros callback sender data. run. destruct data; reflexivity.
Qed.

Lemma first_byte_access_witness :
  fst (get_battery_level nameless_transport (flying, fresh_world)) = Raise IndexError /\
  fst (get_charging_status good_transport (flying, fresh_world)) = Return false /\
  run_handler (notification_handler 7%nat) 42 [x32; xff] (flying, fresh_world) =
    (Return tt, (flying, mkWorld [] [(7%nat, 50)])).
Proof.
  destruct (first_byte_access nameless_transport flying fresh_world plane_client
              eq_refl eq_refl) as (Hlevel & _ & _).
  destruct (first_byte_access good_transport flying fresh_world plane_client
              eq_refl eq_refl) as (_ & Hcharging & Hnotify).
  split; [exact (Hlevel [] eq_refl)|].
  split; [exact (Hcharging [x00] eq_refl)|].
  exact (Hnotify 7%nat 42 [x32; xff]).
Defined.

(** ** Charging status *)

Lemma bool_of_byte_false (b : byte) : bool_of_byte b = false <-> b = x00.
Proof.
  unfold bool_of_byte. rewrite negb_false_iff, Z.eqb_eq. split.
  - intros H. apply int_of_byte_inj. rewrite H. reflexivity.
  - intros ->. reflexivity.
Qed.

(** X1: while connected, [get_charging_status] makes exactly one library
    call, a read of the charging endpoint, leaves the object as it was, and
    returns [False] when the first byte read is 0x00 and [True] for every
    other first byte. *)
Theorem get_charging_status_nonzero (T : Transport) (s : t) (w : World) :
  wf s -> connected s = true ->
  exists c, client s = Some c /\
    snd (get_charging_status T (s, w)) =
      (s, mkWorld (calls w ++ [ReadGattChar c BATTERY_CHARGING_UUID]) (invoked w)) /\
    (forall b rest,
        on_read T (calls w) c BATTERY_CHARGING_UUID = inr (b :: rest) ->
        exists r, fst (get_charging_status T (s, w)) = Return r /\
          (r = false <-> b = x00) /\ (r = true <-> int_of_byte b <> 0)).
Proof.
  intros Hwf Hconn. destruct (wf_client s Hwf Hconn) as [c Hc].
  exists c. split; [exact Hc|]. split.
  - unfold get_charging_status. enter Hconn Hc.
    destruct (on_read T (calls w) c BATTERY_CHARGING_UUID) as [msg|[|b rest]]; reflexivity.
  - intros b rest Hr. exists (bool_of_byte b). split; [|split].
    + unfold get_charging_status. enter Hconn Hc. rewrite Hr. reflexivity.
    + apply bool_of_byte_false.
    + unfold bool_of_byte. rewrite negb_true_iff, Z.eqb_neq. reflexivity.
Qed.

Lemma get_charging_status_witness :
  wf flying /\ connected flying = true /\
  fst (get_charging_status good_transport (flying, fresh_world)) = Return false.
Proof.
  assert (Hwf : wf flying) by (intros _; exists plane_client; reflexivity).
  assert (Hc : connected flying = true) by reflexivity.
  split; [exact Hwf|]. split; [exact Hc|].
  destruct (get_charging_status_nonzero good_transport flying fresh_world Hwf Hc)
    as (c & Hcl & _ & Hread).
  injection Hcl as <-.
  destruct (Hread x00 [] eq_refl) as (r & Hrun & Hfalse & _).
  rewrite Hrun. f_equal. apply Hfalse. reflexivity.
Defined.

(** ** Failures inside the library *)

(** X2: an exception raised by the library during the read of
    [get_battery_level] or [get_charging_status], or during the
    subscription of [enable_battery_notifications], comes out of the method
    as it is, after that one call and no other: nothing is retried and the
    object is left as it was. *)
Theorem transport_failures_propagate
    (T : Transport) (s : t) (w : World) (c : BleakClient) (msg : string) :
  connected s = true -> client s = Some c ->
  (on_read T (calls w) c BATTERY_LEVEL_UUID = inl msg ->
   get_battery_level T (s, w) =
     (Raise (TransportError msg),
      (s, mkWorld (calls w ++ [ReadGattChar c BATTERY_LEVEL_UUID]) (invoked w)))) /\
  (on_read T (calls w) c BATTERY_CHARGING_UUID = inl msg ->
   get_charging_status T (s, w) =
     (Raise (TransportError msg),
      (s, mkWorld (calls w ++ [ReadGattChar c BATTERY_CHARGING_UUID]) (invoked w)))) /\
  (forall callback,
      on_start_notify T (calls w) c BATTERY_LEVEL_UUID = Some msg ->
      enable_battery_notifications T callback (s, w) =
        (Raise (TransportError msg),
         (s, mkWorld (calls w ++
                      [StartNotify c BATTERY_LEVEL_UUID (notification_handler callback)])
                     (invoked w)))).
Proof.
  intros Hconn Hc. repeat split.
  - intros Hr. unfold get_battery_level. enter Hconn Hc. rewrite Hr. reflexivity.
  - intros Hr. unfold get_charging_status. enter Hconn Hc. rewrite Hr. reflexivity.
  - intros callback Hr. unfold enable_battery_notifications. enter Hconn Hc.
    rewrite Hr. reflexivity.
Qed.

Lemma transport_failures_witness :
  get_charging_status flaky_transport (flying, fresh_world) =
    (Raise (TransportError "read failed"),
     (flying, mkWorld [ReadGattChar plane_client BATTERY_CHARGING_UUID] [])).
Proof.
  destruct (transport_failures_propagate flaky_transport flying fresh_world plane_client
              "read failed" eq_refl eq_refl) as (_ & Hcharging & _).
  exact (Hcharging eq_refl).
Defined.

(** ** The rudder byte determines the angle *)

Lemma set_rudder_angle_run (T : Transport) (s : t) (w : World) (c : BleakClient) (angle : Z) :
  connected s = true -> client s = Some c -> -128 <= angle <= 127 ->
  exists b, int_of_byte b = Z.land angle 255 /\
    set_rudder_angle T angle (s, w) =
      (answer_unit (on_write T (calls w) c RUDDER_CONTROL_UUID [b]),
       (s, mkWorld (calls w ++ [WriteGattChar c RUDDER_CONTROL_UUID [b]]) (invoked w))).
Proof.
  intros Hconn Hc Hr.
  destruct (signed_byte_value angle) as [_ Hb255].
  destruct (bytes_of_ints_single (Z.land angle 255) Hb255) as (b & Hb & Hi).
  exists b. split; [exact Hi|].
  unfold set_rudder_angle. run. rewrite Hconn. cbn [negb].
  replace ((-128 <=? angle) && (angle <=? 127))%bool with true
    by (symmetry; apply andb_true_iff; split; apply Z.leb_le; lia).
  cbn [negb]. rewrite Hb, Hc. reflexivity.
Qed.

Lemma land_255_signed (angle : Z) :
  -128 <= angle <= 127 ->
  Z.land angle 255 = if angle <? 0 then angle + 256 else angle.
Proof.
  intros Hr. rewrite land_255_mod. destruct (Z.ltb_spec angle 0).
  - symmetry. apply (Z.mod_unique angle 256 (-1) (angle + 256)); lia.
  - apply Z.mod_small. lia.
Qed.

(** X3: while connected, for [-128 <= angle <= 127] the byte that
    [set_rudder_angle] writes has the value [angle] when [angle] is not
    negative and [angle + 256] when it is, so the byte determines the angle:
    two angles of the range that make the same library calls are equal. *)
Theorem rudder_byte_determines_angle (T : Transport) (s : t) (w : World) (angle : Z) :
  wf s -> connected s = true -> -128 <= angle <= 127 ->
  exists c b,
    calls (snd (snd (set_rudder_angle T angle (s, w)))) =
      calls w ++ [WriteGattChar c RUDDER_CONTROL_UUID [b]] /\
    (0 <= angle -> int_of_byte b = angle) /\
    (angle < 0 -> int_of_byte b = angle + 256) /\
    (forall angle',
        -128 <= angle' <= 127 ->
        calls (snd (snd (set_rudder_angle T angle' (s, w)))) =
          calls (snd (snd (set_rudder_angle T angle (s, w)))) ->
        angle' = angle).
Proof.
  intros Hwf Hconn Hr. destruct (wf_client s Hwf Hconn) as [c Hc].
  destruct (set_rudder_angle_run T s w c angle Hconn Hc Hr) as (b & Hb & Hrun).
  rewrite (land_255_signed angle Hr) in Hb.
  exists c, b. rewrite Hrun. cbn [snd calls]. split; [reflexivity|].
  split; [|split].
  - intros H0. rewrite Hb. destruct (Z.ltb_spec angle 0); [lia | reflexivity].
  - intros H0. rewrite Hb. destruct (Z.ltb_spec angle 0); [reflexivity | lia].
  - intros angle' Hr' Hsame.
    destruct (set_rudder_angle_run T s w c angle' Hconn Hc Hr') as (b' & Hb' & Hrun').
    rewrite (land_255_signed angle' Hr') in Hb'.
    rewrite Hrun' in Hsame. cbn [snd calls] in Hsame.
    apply app_inv_head in Hsame. injection Hsame as Hbb. subst b'.
    rewrite Hb in Hb'.
    destruct (Z.ltb_spec angle 0), (Z.ltb_spec angle' 0); lia.
Qed.

Lemma rudder_byte_witness :
  wf flying /\ connected flying = true /\
  exists b,
    calls (snd (snd (set_rudder_angle good_transport (-100) (flying, fresh_world)))) =
      [WriteGattChar plane_client RUDDER_CONTROL_UUID [b]] /\
    int_of_byte b = 156.
Proof.
  assert (Hwf : wf flying) by (intros _; exists plane_client; reflexivity).
  assert (Hc : connected flying = true) by reflexivity.
  split; [exact Hwf|]. split; [exact Hc|].
  destruct (rudder_byte_determines_angle good_transport flying fresh_world (-100) Hwf Hc
              ltac:(lia)) as (c & b & Hcalls & _ & Hneg & _).
  exists b. split.
  - rewrite Hcalls. vm_compute in Hcalls. injection Hcalls as <- _. reflexivity.
  - exact (Hneg ltac:(lia)).
Defined.

(** ** What every method does to the world outside the object *)

Ltac appended :=
  cbn [fst snd answer_unit answer index0 calls invoked];
  first
    [ exists []; split; [symmetry; apply world_eta | cbn; lia]
    | eexists [_]; split; [reflexivity | cbn; lia]
    | eexists [_; _]; split;
      [cbn [calls invoked]; rewrite <- app_assoc; reflexivity | cbn; lia] ].

(** X4: a method only ever appends to the history of library calls and
    never calls a caller-supplied callback itself.  [connect] makes at most
    two library calls; every other method except the diagnostic enumeration
    makes at most one. *)
Theorem methods_only_append_calls (T : Transport) (op : operation) (s : t) (w : World) :
  exists cs,
    snd (snd (run_op T op (s, w))) = mkWorld (calls w ++ cs) (invoked w) /\
    match op with
    | Connect _ _ => (List.length cs <= 2)%nat
    | TestAllCharacteristics => True
    | _ => (List.length cs <= 1)%nat
    end.
Proof.
  destruct op; cbn [run_op].
  - unfold connect. run.
    destruct (scan T (calls w) timeout) as [msg|seen]; [appended|].
    destruct (find (name_filter T target_name) seen) as [d|]; cbn; [|appended].
    destruct (on_connect T (calls w ++ [FindDevice timeout]) (mkClient (dev_address d)));
      appended.
  - unfold disconnect. run.
    destruct (client s) as [c|]; [|appended].
    destruct (connected s); [|appended].
    destruct (on_disconnect T (calls w) c); appended.
  - unfold set_motor_speed. run.
    destruct (connected s); cbn [negb]; [|appended].
    destruct ((0 <=? speed) && (speed <=? 254))%bool; cbn [negb]; [|appended].
    destruct (bytes_of_ints [speed]) as [bs|e]; [|appended].
    destruct (client s) as [c|]; [|appended].
    destruct (on_write T (calls w) c MOTOR_CONTROL_UUID bs); appended.
  - unfold set_rudder_angle. run.
    destruct (connected s); cbn [negb]; [|appended].
    destruct ((-128 <=? angle) && (angle <=? 127))%bool; cbn [negb]; [|appended].
    destruct (bytes_of_ints [Z.land angle 255]) as [bs|e]; [|appended].
    destruct (client s) as [c|]; [|appended].
    destruct (on_write T (calls w) c RUDDER_CONTROL_UUID bs); appended.
  - unfold get_battery_level. run.
    destruct (connected s); cbn [negb]; [|appended].
    destruct (client s) as [c|]; [|appended].
    destruct (on_read T (calls w) c BATTERY_LEVEL_UUID) as [msg|[|b rest]]; appended.
  - unfold get_charging_status. run.
    destruct (connected s); cbn [negb]; [|appended].
    destruct (client s) as [c|]; [|appended].
    destruct (on_read T (calls w) c BATTERY_CHARGING_UUID) as [msg|[|b rest]]; appended.
  - unfold enable_battery_notifications. run.
    destruct (connected s); cbn [negb]; [|appended].
    destruct (client s) as [c|]; [|appended].
    destruct (on_start_notify T (calls w) c BATTERY_LEVEL_UUID); appended.
  - unfold bind at 1.
    destruct (connected s) eqn:Hconn.
    + destruct (client s) as [c|] eqn:Hc.
      * rewrite (test_all_characteristics_connected T s w c Hconn Hc).
        eexists. split; [reflexivity | exact I].
      * unfold test_all_characteristics.
        unfold bind at 1, self_connected at 1. cbn [fst]. rewrite Hconn. cbn [negb].
        unfold bind at 1, self_client at 1. cbn [fst]. rewrite Hc.
        unfold bind at 1, deref at 1, raise at 1.
        exists []. split; [symmetry; apply world_eta | exact I].
    + unfold test_all_characteristics.
      unfold bind at 1, self_connected at 1. cbn [fst]. rewrite Hconn. cbn [negb].
      unfold raise. exists []. split; [symmetry; apply world_eta | exact I].
Qed.

(** ** The states a session can be in *)

Lemma connect_keeps_callback (T : Transport) (target_name : string) (timeout : Q)
    (s : t) (w : World) :
  _battery_callback (fst (snd (connect T target_name timeout (s, w)))) = _battery_callback s.
Proof.
  unfold connect. run.
  destruct (scan T (calls w) timeout) as [msg|seen]; [reflexivity|].
  destruct (find (name_filter T target_name) seen) as [d|]; cbn; [|reflexivity].
  destruct (on_connect T (calls w ++ [FindDevice timeout]) (mkClient (dev_address d)));
    reflexivity.
Qed.

Lemma disconnect_keeps_callback (T : Transport) (s : t) (w : World) :
  _battery_callback (fst (snd (disconnect T (s, w)))) = _battery_callback s.
Proof.
  unfold disconnect. run.
  destruct (client s) as [c|]; [|reflexivity].
  destruct (connected s); [|reflexivity].
  destruct (on_disconnect T (calls w) c); reflexivity.
Qed.

Lemma bind_ret_state {A B} (m : M A) (f : A -> B) (st : St) :
  snd (bind m (fun x => ret (f x)) st) = snd (m st).
Proof. unfold bind, ret. destruct (m st) as [[a|e] st']; reflexivity. Qed.

Lemma run_op_keeps_callback (T : Transport) (op : operation) (s : t) (w : World) :
  _battery_callback (fst (snd (run_op T op (s, w)))) = _battery_callback s.
Proof.
  destruct (is_control op) eqn:Hop.
  - rewrite (control_keeps_session T op Hop). reflexivity.
  - destruct op; try discriminate Hop; cbn [run_op]; rewrite bind_ret_state.
    + apply connect_keeps_callback.
    + apply disconnect_keeps_callback.
Qed.

(** X5: in every state that the methods and the delivery of notifications
    can produce from a fresh object, a session that is flagged connected
    holds a client, and the [_battery_callback] attribute is still [None]:
    [enable_battery_notifications] hands the callback to the library and
    does not store it. *)
Theorem reachable_invariant (T : Transport) (s : t) (w : World) :
  reachable T (s, w) ->
  (connected s = true -> exists c, client s = Some c) /\ _battery_callback s = None.
Proof.
  intros H. split; [exact (reachable_wf T (s, w) H)|].
  remember (s, w) as st eqn:E. revert s w E.
  induction H as [|[s0 w0] op _ IH|[s0 w0] h sender data _ IH]; intros s w E.
  - injection E as <- _. reflexivity.
  - replace s with (fst (snd (run_op T op (s0, w0)))) by (rewrite E; reflexivity).
    rewrite run_op_keeps_callback. exact (IH s0 w0 eq_refl).
  - replace s with (fst (snd (run_handler h sender data (s0, w0))))
      by (rewrite E; reflexivity).
    rewrite run_handler_keeps_session. exact (IH s0 w0 eq_refl).
Qed.

Lemma reachable_invariant_witness :
  reachable good_transport
    (mkSelf true (Some plane_client) (Some plane) None,
     mkWorld [FindDevice (5 # 1); ClientConnect plane_client;
              StartNotify plane_client BATTERY_LEVEL_UUID (notification_handler 7%nat)] []) /\
  _battery_callback (mkSelf true (Some plane_client) (Some plane) None) = None.
Proof.
  assert (H : reachable good_transport
    (mkSelf true (Some plane_client) (Some plane) None,
     mkWorld [FindDevice (5 # 1); ClientConnect plane_client;
              StartNotify plane_client BATTERY_LEVEL_UUID (notification_handler 7%nat)] [])).
  { exact (reach_op good_transport _ (EnableBatteryNotifications 7%nat)
             (reach_op good_transport _ (Connect "TailorToys PowerUp" (5 # 1))
                (reach_init good_transport))). }
  split; [exact H|].
  exact (proj2 (reachable_invariant good_transport _ _ H)).
Defined.

(** X6: the [connected] flag goes from false to true only in a [connect]
    that returns [True], and from true to false only in a [disconnect] that
    returns normally; no other method, and no failed call, moves it. *)
Theorem connected_flag_transitions (T : Transport) (op : operation) (s : t) (w : World) :
  (connected s = false ->
   connected (fst (snd (run_op T op (s, w)))) = true ->
   (exists target_name timeout, op = Connect target_name timeout) /\
   fst (run_op T op (s, w)) = Return (VConnect RTrue)) /\
  (connected s = true ->
   connected (fst (snd (run_op T op (s, w)))) = false ->
   op = Disconnect /\ fst (run_op T op (s, w)) = Return VNone).
Proof.
  destruct (is_control op) eqn:Hop.
  - rewrite (control_keeps_session T op Hop). split; intros H1 H2; congruence.
  - destruct op; try discriminate Hop; cbn [run_op].
    + unfold connect. run.
      destruct (scan T (calls w) timeout) as [msg|seen];
        [split; cbn; intros H1 H2; congruence|].
      destruct (find (name_filter T target_name) seen) as [d|]; cbn;
        [|split; intros H1 H2; congruence].
      destruct (on_connect T (calls w ++ [FindDevice timeout]) (mkClient (dev_address d)));
        cbn; split; intros H1 H2; try congruence.
      split; [eexists; eexists; reflexivity | reflexivity].
    + unfold disconnect. run.
      destruct (client s) as [c|]; [|split; cbn; intros H1 H2; congruence].
      destruct (connected s) eqn:Hconn; [|split; cbn; intros H1 H2; congruence].
      destruct (on_disconnect T (calls w) c); cbn; split; intros H1 H2; try congruence.
      split; reflexivity.
Qed.

Lemma connected_flag_witness :
  connected init = false /\
  connected (fst (snd (run_op good_transport (Connect "TailorToys PowerUp" (5 # 1))
                         (init, fresh_world)))) = true /\
  fst (run_op good_transport (Connect "TailorToys PowerUp" (5 # 1)) (init, fresh_world)) =
    Return (VConnect RTrue).
Proof.
  split; [reflexivity|]. split; [reflexivity|].
  exact (proj2 (proj1 (connected_flag_transitions good_transport
                         (Connect "TailorToys PowerUp" (5 # 1)) init fresh_world)
                  eq_refl eq_refl)).
Defined.

(** ** More on connecting and disconnecting *)

(** X7: on a connected session holding a client, [disconnect] makes exactly
    one library call, the teardown of that client.  When the teardown
    returns, the flag is cleared and the client and the device stay stored;
    when it raises, the exception comes out and the session is still
    flagged connected. *)
Theorem disconnect_teardown (T : Transport) (s : t) (w : World) (c : BleakClient) :
  connected s = true -> client s = Some c ->
  disconnect T (s, w) =
    match on_disconnect T (calls w) c with
    | None =>
        (Return tt,
         (mkSelf false (Some c) (device s) (_battery_callback s),
          mkWorld (calls w ++ [ClientDisconnect c]) (invoked w)))
    | Some msg =>
        (Raise (TransportError msg),
         (s, mkWorld (calls w ++ [ClientDisconnect c]) (invoked w)))
    end.
Proof.
  intros Hconn Hc. unfold disconnect. run. rewrite Hc, Hconn.
  destruct (on_disconnect T (calls w) c); cbn; rewrite ?Hc; reflexivity.
Qed.

Lemma disconnect_teardown_witness :
  disconnect good_transport (flying, fresh_world) =
    (Return tt,
     (mkSelf false (Some plane_client) (Some plane) None,
      mkWorld [ClientDisconnect plane_client] [])).
Proof.
  exact (disconnect_teardown good_transport flying fresh_world plane_client
           eq_refl eq_refl).
Defined.

Lemma find_name_filter (T : Transport) (target_name : string) (seen : list BLEDevice)
    (d : BLEDevice) :
  find (name_filter T target_name) seen = Some d -> nonempty_name_equal T target_name d.
Proof.
  intros H. apply find_some in H. apply name_filter_spec. exact (proj2 H).
Qed.

(** X8: when [connect] raises, the exception is the library's and the
    [connected] flag is what it was.  Either the scan failed, and then the
    object is untouched after that single call; or a matching device was
    found and its connection failed, and then [device] and [client] have
    already been overwritten with the new device and a client for its
    address. *)
Theorem connect_raises
    (T : Transport) (target_name : string) (timeout : Q)
    (s s' : t) (w w' : World) (e : exn) :
  connect T target_name timeout (s, w) = (Raise e, (s', w')) ->
  connected s' = connected s /\
  exists msg, e = TransportError msg /\
    ((scan T (calls w) timeout = inl msg /\ s' = s /\
      calls w' = calls w ++ [FindDevice timeout]) \/
     (exists d,
         nonempty_name_equal T target_name d /\
         device s' = Some d /\ client s' = Some (mkClient (dev_address d)) /\
         calls w' =
           calls w ++ [FindDevice timeout; ClientConnect (mkClient (dev_address d))])).
Proof.
  unfold connect. run.
  destruct (scan T (calls w) timeout) as [msg|seen] eqn:Hscan.
  - intros [= <- <- <-]. split; [reflexivity|]. exists msg. split; [reflexivity|].
    left. repeat split.
  - destruct (find (name_filter T target_name) seen) as [d|] eqn:Hfind; cbn;
      [|discriminate].
    destruct (on_connect T (calls w ++ [FindDevice timeout]) (mkClient (dev_address d)))
      as [msg|]; cbn; [|discriminate].
    intros [= <- <- <-]. split; [reflexivity|]. exists msg. split; [reflexivity|].
    right. exists d. split; [exact (find_name_filter _ _ _ _ Hfind)|].
    cbn. rewrite <- app_assoc. repeat split.
Qed.

Lemma connect_raises_witness :
  connect refusing_transport "TailorToys PowerUp" (5 # 1) (init, fresh_world) =
    (Raise (TransportError "refused"),
     (mkSelf false (Some plane_client) (Some plane) None,
      mkWorld [FindDevice (5 # 1); ClientConnect plane_client] [])) /\
  connected (mkSelf false (Some plane_client) (Some plane) None) = connected init.
Proof.
  assert (Hrun : connect refusing_transport "TailorToys PowerUp" (5 # 1)
                   (init, fresh_world) =
    (Raise (TransportError "refused"),
     (mkSelf false (Some plane_client) (Some plane) None,
      mkWorld [FindDevice (5 # 1); ClientConnect plane_client] []))) by reflexivity.
  split; [exact Hrun|].
  exact (proj1 (connect_raises refusing_transport _ _ _ _ _ _ _ Hrun)).
Defined.

(** X9: what [connect] returns tells the state it leaves.  [True]: the
    session is flagged connected, [device] is a device whose name is
    advertised, non-empty and equal to the target name case-insensitively,
    [client] is a client for that device's address, and the scan and the
    connection are the two calls made.  Otherwise the value is the pair
    [(False, "CouldNotFind")]: [device] is [None], the flag and the client
    are what they were, and the scan is the only call made. *)
Theorem connect_returns
    (T : Transport) (target_name : string) (timeout : Q)
    (s s' : t) (w w' : World) (r : connect_result) :
  connect T target_name timeout (s, w) = (Return r, (s', w')) ->
  (r = RTrue /\ connected s' = true /\
   exists d,
     nonempty_name_equal T target_name d /\
     device s' = Some d /\ client s' = Some (mkClient (dev_address d)) /\
     calls w' = calls w ++ [FindDevice timeout; ClientConnect (mkClient (dev_address d))]) \/
  (r = RPair false "CouldNotFind" /\ connected s' = connected s /\
   client s' = client s /\ device s' = None /\
   calls w' = calls w ++ [FindDevice timeout]).
Proof.
  unfold connect. run.
  destruct (scan T (calls w) timeout) as [msg|seen] eqn:Hscan; [discriminate|].
  destruct (find (name_filter T target_name) seen) as [d|] eqn:Hfind; cbn.
  - destruct (on_connect T (calls w ++ [FindDevice timeout]) (mkClient (dev_address d)))
      as [msg|]; cbn; [discriminate|].
    intros [= <- <- <-]. left. split; [reflexivity|]. split; [reflexivity|].
    exists d. split; [exact (find_name_filter _ _ _ _ Hfind)|].
    cbn. rewrite <- app_assoc. repeat split.
  - intros [= <- <- <-]. right. repeat split.
Qed.

Lemma connect_returns_witness :
  connect school_transport ecole_upper (5 # 1) (init, fresh_world) =
    (Return RTrue,
     (mkSelf true (Some (mkClient "C0:FF:EE:00:00:03")) (Some school_bus) None,
      mkWorld [FindDevice (5 # 1); ClientConnect (mkClient "C0:FF:EE:00:00:03")] [])) /\
  exists d,
    nonempty_name_equal school_transport ecole_upper d /\
    Some school_bus = Some d.
Proof.
  assert (Hrun : connect school_transport ecole_upper (5 # 1) (init, fresh_world) =
    (Return RTrue,
     (mkSelf true (Some (mkClient "C0:FF:EE:00:00:03")) (Some school_bus) None,
      mkWorld [FindDevice (5 # 1); ClientConnect (mkClient "C0:FF:EE:00:00:03")] [])))
    by (vm_compute; reflexivity).
  split; [exact Hrun|].
  destruct (connect_returns school_transport _ _ _ _ _ _ _ Hrun)
    as [(_ & _ & d & Hname & Hdev & _)|(Hr & _)]; [|discriminate Hr].
  exists d. split; [exact Hname | exact Hdev].
Defined.

Lemma find_pointwise {A} (f g : A -> bool) (l : list A) :
  (forall x, f x = g x) -> find f l = find g l.
Proof.
  intros H. induction l as [|a l IH]; cbn [find]; [reflexivity|].
  rewrite H, IH. reflexivity.
Qed.

(** X10: [connect] looks at the target name through [str.lower] only:
    two target names with the same lower-cased form give the same return
    value, the same object and the same library calls. *)
Theorem connect_ignores_case
    (T : Transport) (name1 name2 : string) (timeout : Q) (st : St) :
  str_lower T name1 = str_lower T name2 ->
  connect T name1 timeout st = connect T name2 timeout st.
Proof.
  intros Hl. destruct st as [s w].
  assert (Hf : forall seen,
             find (name_filter T name1) seen = find (name_filter T name2) seen).
  { intros seen. apply find_pointwise. intros d. unfold name_filter.
    rewrite Hl. reflexivity. }
  unfold connect. run.
  destruct (scan T (calls w) timeout) as [msg|seen]; [reflexivity|].
  rewrite Hf. reflexivity.
Qed.

Lemma connect_ignores_case_witness :
  connect school_transport ecole_upper (5 # 1) (init, fresh_world) =
  connect school_transport ecole_lower (5 # 1) (init, fresh_world).
Proof.
  apply (connect_ignores_case school_transport ecole_upper ecole_lower).
  vm_compute. reflexivity.
Defined.

(** ** Composition *)

Lemma set_motor_speed_run (T : Transport) (s : t) (w : World) (c : BleakClient) (speed : Z) :
  connected s = true -> client s = Some c -> 0 <= speed <= 254 ->
  exists b, int_of_byte b = speed /\
    set_motor_speed T speed (s, w) =
      (answer_unit (on_write T (calls w) c MOTOR_CONTROL_UUID [b]),
       (s, mkWorld (calls w ++ [WriteGattChar c MOTOR_CONTROL_UUID [b]]) (invoked w))).
Proof.
  intros Hconn Hc Hr.
  destruct (bytes_of_ints_single speed ltac:(lia)) as (b & Hb & Hi).
  exists b. split; [exact Hi|].
  unfold set_motor_speed. run. rewrite Hconn. cbn [negb].
  replace ((0 <=? speed) && (speed <=? 254))%bool with true
    by (symmetry; apply andb_true_iff; split; apply Z.leb_le; lia).
  cbn [negb]. rewrite Hb, Hc. reflexivity.
Qed.

(** X11: [connect] followed by [set_motor_speed].  Whatever the object
    held before, when the scan finds a matching device and the connection
    succeeds, a following [set_motor_speed speed] with [0 <= speed <= 254]
    writes the byte [speed] through the client of the device just found:
    the calls made are the scan, the connection and that write. *)
Theorem connect_then_set_motor_speed
    (T : Transport) (target_name : string) (timeout : Q) (s : t) (w : World)
    (seen : list BLEDevice) (d : BLEDevice) (speed : Z) :
  scan T (calls w) timeout = inr seen ->
  find (name_filter T target_name) seen = Some d ->
  on_connect T (calls w ++ [FindDevice timeout]) (mkClient (dev_address d)) = None ->
  0 <= speed <= 254 ->
  let c := mkClient (dev_address d) in
  exists b, int_of_byte b = speed /\
    snd ((connect T target_name timeout ;; set_motor_speed T speed) (s, w)) =
      (mkSelf true (Some c) (Some d) (_battery_callback s),
       mkWorld (calls w ++ [FindDevice timeout; ClientConnect c;
                            WriteGattChar c MOTOR_CONTROL_UUID [b]])
               (invoked w)).
Proof.
  intros Hscan Hfind Hok Hr c.
  assert (Hconnect : connect T target_name timeout (s, w) =
            (Return RTrue,
             (mkSelf true (Some c) (Some d) (_battery_callback s),
              mkWorld (calls w ++ [FindDevice timeout; ClientConnect c]) (invoked w)))).
  { subst c. unfold connect. run. rewrite Hscan, Hfind. cbn. rewrite Hok. cbn.
    rewrite <- app_assoc. reflexivity. }
  destruct (set_motor_speed_run T
              (mkSelf true (Some c) (Some d) (_battery_callback s))
              (mkWorld (calls w ++ [FindDevice timeout; ClientConnect c]) (invoked w))
              c speed eq_refl eq_refl Hr) as (b & Hb & Hrun).
  exists b. split; [exact Hb|].
  unfold bind. rewrite Hconnect, Hrun. cbn [snd calls invoked].
  rewrite <- app_assoc. reflexivity.
Qed.

Lemma connect_then_set_motor_speed_witness :
  exists b, int_of_byte b = 254 /\
    snd ((connect good_transport "TailorToys PowerUp" (5 # 1) ;;
          set_motor_speed good_transport 254) (init, fresh_world)) =
      (flying,
       mkWorld [FindDevice (5 # 1); ClientConnect plane_client;
                WriteGattChar plane_client MOTOR_CONTROL_UUID [b]] []).
Proof.
  exact (connect_then_set_motor_speed good_transport "TailorToys PowerUp" (5 # 1)
           init fresh_world [mkDevice None "00:00:00:00:00:00"; plane] plane 254
           eq_refl eq_refl eq_refl ltac:(lia)).
Defined.

Lemma guard_rejects (T : Transport) (op : operation) (s : t) (w : World) :
  is_control op = true -> connected s = false ->
  run_op T op (s, w) = (Raise NotConnected, (s, w)).
Proof.
  intros Hop Hconn.
  destruct op; try discriminate Hop;
    unfold run_op, set_motor_speed, set_rudder_angle, get_battery_level,
      get_charging_status, enable_battery_notifications, test_all_characteristics;
    run; rewrite Hconn; reflexivity.
Qed.

(** X12: [disconnect] followed by any control or telemetry operation.
    Once [disconnect] has returned on a session that keeps the class
    invariant, each of the six operations raises the "Not connected"
    exception and makes no library call, until [connect] succeeds again. *)
Theorem disconnect_then_rejected
    (T : Transport) (op : operation) (s : t) (w : World) (st' : St) :
  wf s -> is_control op = true ->
  disconnect T (s, w) = (Return tt, st') ->
  (disconnect T ;; run_op T op) (s, w) = (Raise NotConnected, st').
Proof.
  intros Hwf Hop Hrun. unfold bind at 1. rewrite Hrun.
  destruct st' as [s' w']. apply guard_rejects; [exact Hop|].
  revert Hrun. unfold disconnect. run.
  destruct (connected s) eqn:Hconn.
  - destruct (wf_client s Hwf Hconn) as [c Hc]. rewrite Hc.
    destruct (on_disconnect T (calls w) c); cbn; intros [= <- <-]; reflexivity.
  - destruct (client s); intros [= <- <-]; exact Hconn.
Qed.

Lemma disconnect_then_rejected_witness :
  (disconnect good_transport ;; run_op good_transport GetBatteryLevel) (flying, fresh_world) =
    (Raise NotConnected,
     (mkSelf false (Some plane_client) (Some plane) None,
      mkWorld [ClientDisconnect plane_client] [])).
Proof.
  apply (disconnect_then_rejected good_transport GetBatteryLevel flying fresh_world).
  - intros _. exists plane_client. reflexivity.
  - reflexivity.
  - reflexivity.
Defined.

(** ** No attribute error *)

Lemma leb_range (lo hi x : Z) : ((lo <=? x) && (x <=? hi))%bool = true -> lo <= x <= hi.
Proof.
  intros H. apply andb_true_iff in H. destruct H as [H1 H2].
  apply Z.leb_le in H1. apply Z.leb_le in H2. lia.
Qed.

(** X13: on a session that keeps the class invariant no method ever fails
    with an attribute error on a missing client: [self.client] is never
    [None] where a method dereferences it. *)
Theorem no_attribute_error (T : Transport) (op : operation) (s : t) (w : World) :
  wf s -> fst (run_op T op (s, w)) <> Raise AttributeError.
Proof.
  intros Hwf.
  destruct (connected s) eqn:Hconn.
  - destruct (wf_client s Hwf Hconn) as [c Hc].
    destruct op; cbn [run_op].
    + unfold connect. run.
      destruct (scan T (calls w) timeout) as [msg|seen]; [discriminate|].
      destruct (find (name_filter T target_name) seen) as [d|]; cbn; [|discriminate].
      destruct (on_connect T (calls w ++ [FindDevice timeout]) (mkClient (dev_address d)));
        discriminate.
    + unfold disconnect. run. rewrite Hc, Hconn.
      destruct (on_disconnect T (calls w) c); discriminate.
    + unfold set_motor_speed. run. rewrite Hconn. cbn [negb].
      destruct ((0 <=? speed) && (speed <=? 254))%bool eqn:Hr; cbn [negb]; [|discriminate].
      apply leb_range in Hr.
      destruct (bytes_of_ints_single speed ltac:(lia)) as (b & Hb & _). rewrite Hb, Hc.
      destruct (on_write T (calls w) c MOTOR_CONTROL_UUID [b]); discriminate.
    + unfold set_rudder_angle. run. rewrite Hconn. cbn [negb].
      destruct ((-128 <=? angle) && (angle <=? 127))%bool; cbn [negb]; [|discriminate].
      destruct (signed_byte_value angle) as [_ Hb255].
      destruct (bytes_of_ints_single (Z.land angle 255) Hb255) as (b & Hb & _).
      rewrite Hb, Hc.
      destruct (on_write T (calls w) c RUDDER_CONTROL_UUID [b]); discriminate.
    + unfold get_battery_level. enter Hconn Hc.
      destruct (on_read T (calls w) c BATTERY_LEVEL_UUID) as [msg|[|b rest]]; discriminate.
    + unfold get_charging_status. enter Hconn Hc.
      destruct (on_read T (calls w) c BATTERY_CHARGING_UUID) as [msg|[|b rest]];
        discriminate.
    + unfold enable_battery_notifications. enter Hconn Hc.
      destruct (on_start_notify T (calls w) c BATTERY_LEVEL_UUID); discriminate.
    + unfold bind at 1. rewrite (test_all_characteristics_connected T s w c Hconn Hc).
      discriminate.
  - destruct (is_control op) eqn:Hop.
    + rewrite (guard_rejects T op s w Hop Hconn). discriminate.
    + destruct op; try discriminate Hop; cbn [run_op].
      * unfold connect. run.
        destruct (scan T (calls w) timeout) as [msg|seen]; [discriminate|].
        destruct (find (name_filter T target_name) seen) as [d|]; cbn; [|discriminate].
        destruct (on_connect T (calls w ++ [FindDevice timeout]) (mkClient (dev_address d)));
          discriminate.
      * unfold disconnect. run. rewrite Hconn. destruct (client s); discriminate.
Qed.

Lemma no_attribute_error_witness :
  wf flying /\
  fst (run_op good_transport TestAllCharacteristics (flying, fresh_world))
    <> Raise AttributeError.
Proof.
  assert (Hwf : wf flying) by (intros _; exists plane_client; reflexivity).
  split; [exact Hwf|].
  exact (no_attribute_error good_transport TestAllCharacteristics flying fresh_world Hwf).
Defined.
